(** * seafile-scraper: a shallow embedding of [scraps.py]

    The development follows the layout of the Python module: the module
    constants, the exception and value types of the Python run time that
    the code touches, the external libraries ([requests], [json], [os],
    [time], [bs4]/[urllib]) as one interface [Env], a state-and-exception
    monad for the coroutines, and then the classes [BaseDownload],
    [Download], [FolderDownload], [ZipDownload] and [Scraper] method by
    method.  Theorems come after all definitions. *)

From stdpp Require Import base numbers list strings pretty gmap.
From Stdlib Require Import ZArith Lia.

Local Open Scope string_scope.
Set Warnings "-register-all".

(** ** Module constants *)

Definition ZIP_TARGET (token path : string) : string :=
  "https://seafile.rlp.net/api/v2.1/share-link-zip-task/?share_link_token="
    ++ token ++ "&path=" ++ path.
Definition ZIP_PROGRESS (zip_token : string) : string :=
  "https://seafile.rlp.net/api/v2.1/query-zip-progress/?token=" ++ zip_token.
Definition ZIP_FILE (zip_token : string) : string :=
  "https://seafile.rlp.net/seafhttp/zip/" ++ zip_token.
Definition ZIP_CANCEL : string :=
  "https://seafile.rlp.net/api/v2.1/cancel-zip-task/".
Definition FILE_TARGET (token path : string) : string :=
  "https://seafile.rlp.net/d/" ++ token ++ "/files/?p=" ++ path ++ "&dl=1".
Definition FOLDER_TARGET (token path : string) : string :=
  "https://seafile.rlp.net/d/" ++ token ++ "/?p=" ++ path ++ "&mode=list".
Definition SLEEP_TIME : Z := 10.

(** ** Python values and exceptions *)

(** Values produced by [json.loads] (floats are not modelled). *)
Inductive pyval :=
| PyNone
| PyBool (b : bool)
| PyInt (z : Z)
| PyStr (s : string)
| PyList (l : list pyval)
| PyDict (d : list (string * pyval)).

(** Exceptions of [requests.exceptions] that a request can end in. *)
Inductive req_exn := Timeout | ConnectionError | MissingSchema | OtherRequestException.

(** The exceptions the module can raise; all are subclasses of
    [Exception]. *)
Inductive exn :=
| ValueError (msg : string)
| KeyError (key : string)
| TypeError (msg : string)
| UnboundLocalError (var : string)
| AttributeError (msg : string)
| JSONDecodeError
| NotImplementedError
| OSError
| RequestsError (e : req_exn).

(** [str(e)], as an f-string shows an exception. *)
Definition exn_str (e : exn) : string :=
  match e with
  | ValueError msg | TypeError msg | AttributeError msg => msg
  | KeyError key => "'" ++ key ++ "'"
  | UnboundLocalError var =>
      "cannot access local variable '" ++ var
        ++ "' where it is not associated with a value"
  | JSONDecodeError => "Expecting value"
  | NotImplementedError => EmptyString
  | OSError => "OSError"
  | RequestsError _ => "RequestException"
  end.

(** A [requests.Response]: the two attributes the module reads. *)
Record Response := { status_code : Z; content : string }.

(** [Response.ok]: [raise_for_status] raises for 400 <= status < 600. *)
Definition ok (r : Response) : bool :=
  negb ((400 <=? status_code r)%Z && (status_code r <? 600)%Z).

Inductive Outcome := Responds (r : Response) | Fails (e : req_exn).

Inductive Request :=
| GET (uri : string) (timeout : Z)
| POST (uri : string) (data : string).

(** What the process does to the outside, in the order it happens. *)
Inductive Event :=
| EvRequest (r : Request)
| EvSleep (secs : Z)
| EvPrint (line : string).

(** An anchor tag selected by [BeautifulSoup.select]. *)
Record Anchor := { href : option string; text : string }.

(** ** The external libraries *)

Class Env := {
  FS : Type;
  (** [requests.get] / [requests.post]: the answer may depend on all that
      happened before. *)
  http : list Event -> Request -> Outcome;
  (** [json.loads]; [None] is a [JSONDecodeError]. *)
  json_loads : string -> option pyval;
  (** [str()] of a decoded value, as used by f-strings and [str.format]. *)
  py_str : pyval -> string;
  time_ctime : list Event -> string;
  os_path_exists : string -> FS -> bool;
  os_path_split : string -> string * string;
  (** [os.makedirs]; [None] is an [OSError]. *)
  os_makedirs : string -> FS -> option FS;
  (** [open(filename, 'wb')] followed by [f.write(content)]. *)
  open_wb_write : string -> string -> FS -> option FS;
  (** [BeautifulSoup(contents, 'html.parser').select(selector)]. *)
  soup_select : string -> string -> list Anchor;
  (** [parse_qs(urlparse(href).query)['p'][0]]; [None] is a [KeyError]. *)
  query_p : string -> option string;
}.

(** ** State and exceptions *)

(** How a computation ends: it returns, it raises, or it is still
    running when its fuel is used up ([Diverge]; only the two loops
    without a bound, the polling of an export and the crawl, take
    fuel). *)
Inductive Res (A : Type) :=
| Ret (a : A)
| Raise (e : exn)
| Diverge.
Arguments Ret {A} a.
Arguments Raise {A} e.
Arguments Diverge {A}.

Definition M (S A : Type) : Type := S -> Res A * S.

Definition ret {S A} (a : A) : M S A := fun s => (Ret a, s).
Definition raise {S A} (e : exn) : M S A := fun s => (Raise e, s).
Definition diverge {S A} : M S A := fun s => (Diverge, s).
Definition bind {S A B} (m : M S A) (k : A -> M S B) : M S B :=
  fun s =>
    match m s with
    | (Ret a, s') => k a s'
    | (Raise e, s') => (Raise e, s')
    | (Diverge, s') => (Diverge, s')
    end.

Notation "'let!' x ':=' m 'in' k" := (bind m (fun x => k))
  (at level 10, x pattern, m at level 100, k at level 200).
Notation "m ';;;' k" := (bind m (fun _ => k))
  (at level 100, k at level 200, right associativity).

(** [try: body finally: cleanup]: the cleanup runs on return and on raise;
    an exception of the cleanup replaces the outcome of the body. *)
Definition try_finally {S A} (body : M S A) (cleanup : M S unit) : M S A :=
  fun s =>
    match body s with
    | (Diverge, s') => (Diverge, s')
    | (r, s') =>
        match cleanup s' with
        | (Ret _, s'') => (r, s'')
        | (Raise e, s'') => (Raise e, s'')
        | (Diverge, s'') => (Diverge, s'')
        end
    end.

(** ** Objects *)

Inductive Cls := CBaseDownload | CDownload | CFolderDownload | CZipDownload | CScraper.

Definition cls_name (c : Cls) : string :=
  match c with
  | CBaseDownload => "BaseDownload"
  | CDownload => "Download"
  | CFolderDownload => "FolderDownload"
  | CZipDownload => "ZipDownload"
  | CScraper => "Scraper"
  end.

(** The class attribute [EXT]. *)
Definition EXT (c : Cls) : string :=
  match c with CZipDownload => ".zip" | _ => EmptyString end.

(** The instance attributes set by [BaseDownload.__init__]; [None] of an
    attribute that holds a string is [None] here, [None] of [zip_token]
    is [PyNone]. *)
Record Obj := {
  cls : Cls;
  verbose : bool;
  base : option string;
  path : option string;
  token : option string;
  timeout : Z;
  tries : Z;
  chunking : Z;
  force : bool;
  zip_token : pyval;
}.

Definition set_zip_token (v : pyval) (o : Obj) : Obj :=
  {| cls := cls o; verbose := verbose o; base := base o; path := path o;
     token := token o; timeout := timeout o; tries := tries o;
     chunking := chunking o; force := force o; zip_token := v |}.

(** The dicts that describe a remote resource: keys ['link'], ['path'],
    ['name'] and ['type'] (the root has no ['link']). *)
Module Entry.
Record t := { link : option string; path : string; name : string; type : string }.
End Entry.

(** What a [get()] method hands to [download()]. *)
Inductive Content :=
| CBytes (b : string)
| CListing (l : list Entry.t)
| CNone.

(** ** The world, and the primitives acting on it *)

Section Runtime.
Context `{Env}.

Record World := { trace : list Event; fs : FS }.

Definition emit (e : Event) (w : World) : World :=
  {| trace := trace w ++ [e]; fs := fs w |}.

(** A method runs on its object and the world. *)
Definition St : Type := Obj * World.
Definition Meth (A : Type) : Type := M St A.

Definition get_self : Meth Obj := fun s => (Ret (fst s), s).
Definition put_zip_token (v : pyval) : Meth unit :=
  fun s => (Ret tt, (set_zip_token v (fst s), snd s)).
Definition get_world : Meth World := fun s => (Ret (snd s), s).
Definition put_fs (f : FS) : Meth unit :=
  fun s => (Ret tt, (fst s, {| trace := trace (snd s); fs := f |})).
Definition do_emit (e : Event) : Meth unit :=
  fun s => (Ret tt, (fst s, emit e (snd s))).

(** [print(line)]. *)
Definition print (line : string) : Meth unit := do_emit (EvPrint line).
(** [await asyncio.sleep(secs)]. *)
Definition sleep (secs : Z) : Meth unit := do_emit (EvSleep secs).
(** One call into [requests]: the request is recorded, then answered. *)
Definition request (r : Request) : Meth Outcome :=
  fun s => (Ret (http (trace (snd s)) r), (fst s, emit (EvRequest r) (snd s))).

(** A method call on another object: the callee runs on [o], the caller
    keeps its own attributes. *)
Definition call {A} (o : Obj) (m : Meth A) : Meth A :=
  fun s =>
    match m (o, snd s) with
    | (r, s') => (r, (fst s, snd s'))
    end.

(** [await asyncio.gather] with [return_exceptions=True], the coroutines
    taken one after the other in the order of the list: every coroutine
    is run, and an exception is not raised but put in the result list. *)
Fixpoint gather {A} (coros : list (Meth A)) : Meth (list (A + exn)) :=
  match coros with
  | [] => ret []
  | c :: cs =>
      fun s =>
        match c s with
        | (Ret a, s') => (let! rest := gather cs in ret (inl a :: rest)) s'
        | (Raise e, s') => (let! rest := gather cs in ret (inr e :: rest)) s'
        | (Diverge, s') => (Diverge, s')
        end
  end.

Definition str_opt (o : option string) : string :=
  match o with Some s => s | None => "None" end.

(** [a + b] on attributes that are strings or [None]. *)
Definition str_add (a b : option string) : Meth string :=
  match a, b with
  | Some x, Some y => ret (x ++ y)
  | Some _, None => raise (TypeError "can only concatenate str (not 'NoneType') to str")
  | None, Some _ =>
      raise (TypeError "unsupported operand type(s) for +: 'NoneType' and 'str'")
  | None, None =>
      raise (TypeError "unsupported operand type(s) for +: 'NoneType' and 'NoneType'")
  end.

(** *** Decoded JSON *)

Fixpoint dict_get (key : string) (d : list (string * pyval)) : option pyval :=
  match d with
  | [] => None
  | (k, v) :: d' => if String.eqb key k then Some v else dict_get key d'
  end.

Fixpoint dict_set (key : string) (v : pyval) (d : list (string * pyval))
    : list (string * pyval) :=
  match d with
  | [] => [(key, v)]
  | (k, v') :: d' =>
      if String.eqb key k then (key, v) :: d' else (k, v') :: dict_set key v d'
  end.

(** [x[key]] for a string key. *)
Definition getitem (x : pyval) (key : string) : Meth pyval :=
  match x with
  | PyDict d =>
      match dict_get key d with
      | Some v => ret v
      | None => raise (KeyError key)
      end
  | PyList _ | PyStr _ => raise (TypeError "indices must be integers")
  | _ => raise (TypeError "object is not subscriptable")
  end.

(** [x[key] = v] for a string key: the changed value. *)
Definition setitem (x : pyval) (key : string) (v : pyval) : Meth pyval :=
  match x with
  | PyDict d => ret (PyDict (dict_set key v d))
  | PyList _ => raise (TypeError "list indices must be integers or slices, not str")
  | _ => raise (TypeError "object does not support item assignment")
  end.

Definition as_int (v : pyval) : option Z :=
  match v with
  | PyBool b => Some (if b then 1 else 0)%Z
  | PyInt z => Some z
  | _ => None
  end.

(** [a == b] on decoded JSON ([bool] is a subclass of [int]; the keys of a
    dict are distinct). *)
Fixpoint py_eq (a b : pyval) {struct a} : bool :=
  match a, b with
  | PyNone, PyNone => true
  | PyStr s, PyStr t => String.eqb s t
  | PyList l, PyList m =>
      (fix all2 (l : list pyval) (m : list pyval) {struct l} : bool :=
         match l, m with
         | [], [] => true
         | x :: l', y :: m' => py_eq x y && all2 l' m'
         | _, _ => false
         end) l m
  | PyDict d, PyDict e =>
      (length d =? length e)%nat &&
      (fix all (d : list (string * pyval)) : bool :=
         match d with
         | [] => true
         | (k, v) :: d' =>
             match dict_get k e with
             | Some v' => py_eq v v'
             | None => false
             end && all d'
         end) d
  | (PyBool _ | PyInt _), (PyBool _ | PyInt _) =>
      match as_int a, as_int b with
      | Some x, Some y => (x =? y)%Z
      | _, _ => false
      end
  | _, _ => false
  end.

(** *** Module-level functions *)

(** [getattr(self, key) is None]; [None] for a name that is no attribute. *)
Definition attr_is_none (self : Obj) (key : string) : option bool :=
  if String.eqb key "base" then Some (bool_decide (base self = None))
  else if String.eqb key "path" then Some (bool_decide (path self = None))
  else if String.eqb key "token" then Some (bool_decide (token self = None))
  else if String.eqb key "zip_token" then
    Some (match zip_token self with PyNone => true | _ => false end)
  else if String.eqb key "verbose" || String.eqb key "timeout"
          || String.eqb key "tries" || String.eqb key "chunking"
          || String.eqb key "force" then Some false
  else None.

(** The decorator [attr_check] with its [keys]. *)
Fixpoint attr_check {A} (keys : list string) (method : Meth A) : Meth A :=
  match keys with
  | [] => method
  | key :: keys' =>
      let! self := get_self in
      match attr_is_none self key with
      | Some true =>
          raise (ValueError ("Calling this method requires the attribute '"
                               ++ key ++ "' to be set"))
      | Some false => attr_check keys' method
      | None => raise (AttributeError key)
      end
  end.

(** The list comprehension shared by [get_files] and [get_folders]. *)
Fixpoint entries_of (type : string) (anchors : list Anchor) : Meth (list Entry.t) :=
  match anchors with
  | [] => ret []
  | i :: rest =>
      match href i with
      | None => raise (KeyError "href")
      | Some h =>
          match query_p h with
          | None => raise (KeyError "p")
          | Some p =>
              let! tl := entries_of type rest in
              ret ({| Entry.link := Some h; Entry.path := p;
                      Entry.name := text i; Entry.type := type |} :: tl)
          end
      end
  end.

Definition get_files (contents : string) : Meth (list Entry.t) :=
  entries_of "file" (soup_select contents "tr.file-item a.normal").

Definition get_folders (contents : string) : Meth (list Entry.t) :=
  entries_of "folder" (soup_select contents "tr:not(.file-item) a.normal").

(** [io_write(filename, content)]; the file is opened (and so emptied)
    before a content that is not bytes is refused. *)
Definition io_write (filename : string) (content : Content) : Meth Z :=
  print ("Writing " ++ filename) ;;;
  let filedir := fst (os_path_split filename) in
  let! w := get_world in
  (if negb (os_path_exists filedir (fs w)) then
     match os_makedirs filedir (fs w) with
     | Some f => put_fs f
     | None => raise OSError
     end
   else ret tt) ;;;
  let! w := get_world in
  match open_wb_write filename (match content with CBytes b => b | _ => EmptyString end) (fs w) with
  | None => raise OSError
  | Some f =>
      put_fs f ;;;
      match content with
      | CBytes b => ret (Z.of_nat (String.length b))
      | _ => raise (TypeError "a bytes-like object is required")
      end
  end.

End Runtime.

(** ** [class BaseDownload] *)

Module BaseDownload.
Section Methods.
Context `{Env}.

(** [__init__] with its keyword defaults. *)
Definition init (c : Cls) (base path token : option string) (verbose force : bool) : Obj :=
  {| cls := c; verbose := verbose; base := base; path := path; token := token;
     timeout := 60; tries := 5; chunking := 5; force := force; zip_token := PyNone |}.

(** [__repr__]. *)
Definition repr (self : Obj) : string :=
  "<" ++ cls_name (cls self) ++ " for '" ++ str_opt (path self)
      ++ "' from '" ++ str_opt (token self) ++ "'>".

Definition _print (arg : string) : Meth unit :=
  let! self := get_self in
  if verbose self then
    let! w := get_world in
    print (time_ctime (trace w) ++ " " ++ repr self ++ " " ++ arg)
  else ret tt.

(** The [while] loop of [_get].  [tries_now] is the local [tries],
    [response] the local of that name ([None] while it is unbound). *)
Fixpoint _get_loop (fuel : nat) (uri : string) (okay_fail : list Z)
    (tries_now : Z) (response : option Response) : Meth (option Response) :=
  let! self := get_self in
  if (tries_now <? tries self)%Z then
    match fuel with
    | O => diverge
    | S fuel' =>
        let tries_now := (tries_now + 1)%Z in
        (if (0 <? tries_now)%Z then sleep SLEEP_TIME else ret tt) ;;;
        let! o := request (GET uri (timeout self)) in
        let after_try (response : option Response) : Meth (option Response) :=
          match response with
          | None => raise (UnboundLocalError "response")
          | Some r =>
              if negb (ok r) then
                _print ("Non-OK status (" ++ pretty (status_code r) ++ ") at " ++ uri) ;;;
                if bool_decide (status_code r ∈ okay_fail) then ret (Some r)
                else _get_loop fuel' uri okay_fail tries_now (Some r)
              else ret (Some r)
          end in
        match o with
        | Responds r => after_try (Some r)
        | Fails Timeout => _print ("Timeout at " ++ uri) ;;; after_try response
        | Fails ConnectionError =>
            _print ("Connection error at " ++ uri) ;;; after_try response
        | Fails MissingSchema =>
            _print ("URI '" ++ uri ++ "' is malformed.") ;;; ret None
        | Fails OtherRequestException => raise (RequestsError OtherRequestException)
        end
    end
  else ret None.

(** [_get]: the loop starts at [tries = -1] and runs while
    [tries < self.tries], so [self.tries + 1] rounds are all it can take.
    Falling off the end of the function returns [None]. *)
Definition _get (uri : string) (okay_fail : list Z) : Meth (option Response) :=
  let! self := get_self in
  _get_loop (Z.to_nat (tries self + 1)) uri okay_fail (-1) None.

(** The object behind [response.attr]: [_get] may have returned [None]. *)
Definition deref (response : option Response) (attr : string) : Meth Response :=
  match response with
  | Some r => ret r
  | None =>
      raise (AttributeError ("'NoneType' object has no attribute '" ++ attr ++ "'"))
  end.

(** [response.content]. *)
Definition content_of (response : option Response) : Meth string :=
  let! r := deref response "content" in
  ret (content r).

Definition get : Meth Content := raise NotImplementedError.

(** [download], for the [get] of the class of [self]. *)
Definition download (get : Meth Content) : Meth unit :=
  let! self := get_self in
  let! base_path := str_add (base self) (path self) in
  let target_path := base_path ++ EXT (cls self) in
  let! w := get_world in
  if bool_decide (base self <> None)
     && (negb (os_path_exists target_path (fs w)) || force self) then
    let! content := get in
    io_write target_path content ;;;
    ret tt
  else if os_path_exists target_path (fs w) then
    _print ("File at '" ++ target_path ++ "' already exists")
  else ret tt.

End Methods.
End BaseDownload.

(** ** [class Download] *)

Module Download.
Section Methods.
Context `{Env}.
Import BaseDownload.

Definition make_target_uri : Meth string :=
  attr_check ["path"; "token"]
    (let! self := get_self in
     ret (FILE_TARGET (str_opt (token self)) (str_opt (path self)))).

Definition get : Meth Content :=
  let! uri := make_target_uri in
  let! response := _get uri [] in
  let! self := get_self in
  _print ("Got file " ++ str_opt (path self)) ;;;
  let! c := content_of response in
  ret (CBytes c).

End Methods.
End Download.

(** ** [class FolderDownload] *)

Module FolderDownload.
Section Methods.
Context `{Env}.
Import BaseDownload.

Definition make_target_uri : Meth string :=
  attr_check ["path"; "token"]
    (let! self := get_self in
     ret (FOLDER_TARGET (str_opt (token self)) (str_opt (path self)))).

Definition get : Meth (list Entry.t) :=
  let! uri := make_target_uri in
  let! response := _get uri [] in
  let! self := get_self in
  _print ("Got folder listing for resource " ++ str_opt (path self)) ;;;
  let! c := content_of response in
  let! files := get_files c in
  let! c := content_of response in
  let! folders := get_folders c in
  ret (files ++ folders)%list.

End Methods.
End FolderDownload.

(** ** [class ZipDownload] *)

Module ZipDownload.
Section Methods.
Context `{Env}.
Import BaseDownload.

(** [json.loads(response.content)]. *)
Definition loads (response : option Response) : Meth pyval :=
  let! c := content_of response in
  match json_loads c with
  | Some v => ret v
  | None => raise JSONDecodeError
  end.

Definition initiate_zip : Meth pyval :=
  attr_check ["path"; "token"]
    (let! self := get_self in
     let uri := ZIP_TARGET (str_opt (token self)) (str_opt (path self)) in
     let! response := _get uri [400%Z] in
     let! token_response := loads response in
     let! r := deref response "status_code" in
     let! token_response :=
       setitem token_response "requests_status" (PyInt (status_code r)) in
     (if ok r then
        let! v := getitem token_response "zip_token" in
        put_zip_token v
      else ret tt) ;;;
     ret token_response).

Definition check_zip_status : Meth pyval :=
  attr_check ["zip_token"]
    (let! self := get_self in
     let uri := ZIP_PROGRESS (py_str (zip_token self)) in
     let! response := _get uri [] in
     loads response).

Definition get_zip : Meth string :=
  attr_check ["zip_token"]
    (let! self := get_self in
     let uri := ZIP_FILE (py_str (zip_token self)) in
     let! response := _get uri [] in
     content_of response).

(** The release request of a token. *)
Definition release_request (tok : pyval) : Request :=
  POST ZIP_CANCEL ("token=" ++ py_str tok).

Definition cancel_zip : Meth string :=
  attr_check ["zip_token"]
    (let! self := get_self in
     let! o := request (release_request (zip_token self)) in
     match o with
     | Responds r => ret (content r)
     | Fails e => raise (RequestsError e)
     end).

(** The [finally] block of [get_zip_token]. *)
Definition teardown (resource : pyval) : Meth unit :=
  print ("Tearing down context for zip token " ++ py_str resource) ;;;
  cancel_zip ;;;
  _print ("Tore down context for zip token " ++ py_str resource).

(** [async with self.get_zip_token() as resource: body]. *)
Definition get_zip_token {A} (body : pyval -> Meth A) : Meth A :=
  let! resource := initiate_zip in
  try_finally
    (_print ("Created context for zip token " ++ py_str resource) ;;;
     body resource)
    (teardown resource).

(** The [while True] loop of [get]; one unit of fuel per poll. *)
Fixpoint poll (fuel : nat) : Meth unit :=
  match fuel with
  | O => diverge
  | S fuel' =>
      let! progress := check_zip_status in
      let! self := get_self in
      let! zipped := getitem progress "zipped" in
      let! total := getitem progress "total" in
      _print (str_opt (path self) ++ " ZIP progress: "
                ++ py_str zipped ++ "/" ++ py_str total) ;;;
      let! zipped := getitem progress "zipped" in
      let! total := getitem progress "total" in
      if py_eq zipped total then ret tt
      else sleep 1 ;;; poll fuel'
  end.

(** The block under the [async with] of [get]. *)
Definition get_block (fuel : nat) (zip_token : pyval) : Meth Content :=
  let! v := getitem zip_token "zip_token" in
  put_zip_token v ;;;
  let! status := getitem zip_token "requests_status" in
  if py_eq status (PyInt 400) then
    let! self := get_self in
    let! error_msg := getitem zip_token "error_msg" in
    raise (ValueError ("The resource at '" ++ str_opt (path self)
                         ++ "' cannot be zipped because '"
                         ++ py_str error_msg ++ "'"))
  else
    poll fuel ;;;
    _print "Getting finished zip..." ;;;
    let! content := get_zip in
    ret (CBytes content).

Definition get (fuel : nat) : Meth Content := get_zip_token (get_block fuel).

End Methods.
End ZipDownload.

(** ** [class Scraper] *)

Module Scraper.
Section Methods.
Context `{Env}.
Import BaseDownload.

(** [targets.pop()]: the last element and the rest, [None] for the
    [IndexError] of an empty list. *)
Definition pop (targets : list Entry.t) : option (Entry.t * list Entry.t) :=
  match last targets with
  | Some x => Some (x, removelast targets)
  | None => None
  end.

(** The [for i in range(self.chunking)] loop: [n] rounds left, [current]
    built so far. *)
Fixpoint pick (n : nat) (current targets : list Entry.t)
    : list Entry.t * list Entry.t :=
  match n with
  | O => (current, targets)
  | S n' =>
      match pop targets with
      | Some (x, targets') => pick n' (current ++ [x])%list targets'
      | None => (current, targets)
      end
  end.

(** The object built for an entry of the batch. *)
Definition dl_of (self : Obj) (i : Entry.t) : Obj :=
  if String.eqb (Entry.type i) "file"
  then init CDownload (base self) (Some (Entry.path i)) (token self)
         (verbose self) (force self)
  else init CZipDownload (base self) (Some (Entry.path i)) (token self)
         (verbose self) (force self).

(** [dl.download()] with the [get] of the class of [dl]. *)
Definition run_download (fuel : nat) (dl : Obj) : Meth unit :=
  call dl (download (match cls dl with
                     | CDownload => Download.get
                     | CZipDownload => ZipDownload.get fuel
                     | _ => BaseDownload.get
                     end)).

Definition is_exception {A} (r : A + exn) : bool :=
  match r with inl _ => false | inr _ => true end.

(** [[current[i] for i, t in enumerate(fails) if t]]. *)
Fixpoint retarget_of (current : list Entry.t) (fails : list bool) : list Entry.t :=
  match current, fails with
  | c :: current', t :: fails' =>
      if t then c :: retarget_of current' fails' else retarget_of current' fails'
  | _, _ => []
  end.

(** The loop over [zip(runs, fails, current)] that reports the failures. *)
Fixpoint report (runs : list (unit + exn)) (fails : list bool)
    (current : list Entry.t) : Meth unit :=
  match runs, fails, current with
  | fail :: runs', failed :: fails', obj :: current' =>
      (if failed then
         _print ("Failed on " ++ Entry.name obj ++ " because '"
                   ++ match fail with
                      | inr e => exn_str e
                      | inl _ => "None"
                      end ++ "'. Attempting to descend")
       else ret tt) ;;;
      report runs' fails' current'
  | _, _, _ => ret tt
  end.

(** The object whose [get()] lists a folder. *)
Definition folder_of (self : Obj) (i : Entry.t) : Obj :=
  init CFolderDownload None (Some (Entry.path i)) (token self)
    (verbose self) (force self).

(** [sum(new_targets, start=[])]. *)
Fixpoint sum_lists (new_targets : list (list Entry.t + exn)) (acc : list Entry.t)
    : Meth (list Entry.t) :=
  match new_targets with
  | [] => ret acc
  | inl l :: rest => sum_lists rest (acc ++ l)%list
  | inr e :: rest => raise (TypeError "can only concatenate list to list")
  end.

(** One round of the [while targets] loop: the new value of [targets]. *)
Definition step (fuel : nat) (targets : list Entry.t) : Meth (list Entry.t) :=
  let! self := get_self in
  let '(current, targets) := pick (Z.to_nat (chunking self)) [] targets in
  let dls := map (dl_of self) current in
  let chunk := map (run_download fuel) dls in
  let! runs := gather chunk in
  let fails := map is_exception runs in
  let retarget := retarget_of current fails in
  report runs fails current ;;;
  let new_targets :=
    map (fun i => call (folder_of self i) FolderDownload.get)
        (filter (fun i => Entry.type i = "folder") retarget) in
  let! new_targets := gather new_targets in
  let! added := sum_lists new_targets [] in
  ret (targets ++ added)%list.

Fixpoint loop (fuel : nat) (targets : list Entry.t) : Meth unit :=
  match targets with
  | [] => ret tt
  | _ :: _ =>
      match fuel with
      | O => diverge
      | S fuel' =>
          let! targets := step fuel' targets in
          loop fuel' targets
      end
  end.

Definition root : Entry.t :=
  {| Entry.link := None; Entry.path := "/"; Entry.name := "Root";
     Entry.type := "folder" |}.

Definition get (fuel : nat) : Meth unit :=
  attr_check ["token"] (loop fuel [root]).

End Methods.
End Scraper.

(** ** [main] *)

(** The namespace that [parser.parse_args()] hands to [main]: [token] and
    [output] are the single elements of their [nargs=1] lists ([output] is
    [None] when the option is not given), [chunk_size] is a number. *)
Module Args.
Record t := {
  token : string;
  output : option string;
  verbose : bool;
  chunk_size : Z;
  force : bool;
}.
End Args.

Section Main.
Context `{Env}.

(** [main] after the parsing: it builds the [Scraper] and runs its [get]
    to the end. *)
Definition main (fuel : nat) (args : Args.t) : M World unit :=
  fun w =>
    match Args.output args with
    | None => (Raise (TypeError "'NoneType' object is not subscriptable"), w)
    | Some output =>
        let scraper :=
          {| cls := CScraper; verbose := Args.verbose args; base := Some output;
             path := None; token := Some (Args.token args); timeout := 60;
             tries := 5; chunking := Args.chunk_size args;
             force := Args.force args; zip_token := PyNone |} in
        match Scraper.get fuel (scraper, w) with
        | (r, s') => (r, snd s')
        end
    end.

End Main.

(** ** A small concrete environment

    Used to run the definitions: a file system that is a finite map from
    paths to file contents ([None] for a directory), a decoder that knows
    the bodies the test servers send, and a server given as a function. *)

Module Demo.

Definition fsmap : Type := gmap string (option string).

(** The part of a path before its last slash, and the part after it. *)
Fixpoint rsplit (s : string) : option (string * string) :=
  match s with
  | EmptyString => None
  | String c s' =>
      match rsplit s' with
      | Some (h, t) => Some (String c h, t)
      | None => if Ascii.eqb c (Ascii.ascii_of_nat 47) then Some (EmptyString, s') else None
      end
  end.

Definition split (s : string) : string * string :=
  match rsplit s with
  | Some (EmptyString, t) => ("/", t)
  | Some (h, t) => (h, t)
  | None => (EmptyString, s)
  end.

(** The bodies of the test servers, decoded. *)
Definition bodies : list (string * pyval) :=
  [ ("{zip_token: abc}", PyDict [("zip_token", PyStr "abc")]);
    ("{error_msg: too large}", PyDict [("error_msg", PyStr "too large")]);
    ("{zipped: 1, total: 2}", PyDict [("zipped", PyInt 1); ("total", PyInt 2)]);
    ("{zipped: 2, total: 2}", PyDict [("zipped", PyInt 2); ("total", PyInt 2)]) ].

Definition loads (s : string) : option pyval := dict_get s bodies.

Definition str (v : pyval) : string :=
  match v with
  | PyNone => "None"
  | PyBool true => "True"
  | PyBool false => "False"
  | PyInt z => pretty z
  | PyStr s => s
  | PyList _ => "[...]"
  | PyDict _ => "{...}"
  end.

(** The anchors of the one listing page the test servers send: a file
    and a folder. *)
Definition select (contents selector : string) : list Anchor :=
  if String.eqb contents "<listing>" then
    if String.eqb selector "tr.file-item a.normal"
    then [ {| href := Some "?p=/a.txt"; text := "a.txt" |} ]
    else [ {| href := Some "?p=/sub"; text := "sub" |} ]
  else [].

Definition param_p (h : string) : option string :=
  if String.prefix "?p=" h then Some (String.substring 3 (String.length h - 3) h)
  else None.

Definition env (server : list Event -> Request -> Outcome) : Env := {|
  FS := fsmap;
  http := server;
  json_loads := loads;
  py_str := str;
  time_ctime := fun _ => "Wed Nov  4 12:00:00 2026";
  os_path_exists := fun p f => bool_decide (is_Some (f !! p));
  os_path_split := split;
  os_makedirs := fun p f => Some (<[p := None]> f);
  open_wb_write := fun p b f => Some (<[p := Some b]> f);
  soup_select := select;
  query_p := param_p;
|}.

Definition response (status : Z) (body : string) : Outcome :=
  Responds {| status_code := status; content := body |}.

(** Servers. *)
Definition always (o : Outcome) : list Event -> Request -> Outcome := fun _ _ => o.

Definition empty_world (server : list Event -> Request -> Outcome)
    : @World (env server) :=
  @Build_World (env server) [] (∅ : fsmap).

End Demo.

(** * Specification vocabulary *)

Local Open Scope list_scope.

(** The weakest precondition of a computation: [Q] holds of the result
    and the state that [m] ends in. *)
Definition wp {S A} (m : M S A) (Q : Res A -> S -> Prop) (s : S) : Prop :=
  Q (m s).1 (m s).2.

#[global] Instance Request_eq_dec : EqDecision Request.
Proof. solve_decision. Defined.

Section Vocabulary.
Context `{Env}.

(** The world after the events [evs]; the file system is kept. *)
Definition extend (w : World) (evs : list Event) : World :=
  {| trace := trace w ++ evs; fs := fs w |}.

Definition is_get (e : Event) : bool :=
  match e with EvRequest (GET _ _) => true | _ => false end.
Definition is_post (e : Event) : bool :=
  match e with EvRequest (POST _ _) => true | _ => false end.
Definition is_print (e : Event) : bool :=
  match e with EvPrint _ => true | _ => false end.
Definition is_sleep (e : Event) : bool :=
  match e with EvSleep _ => true | _ => false end.

(** The number of events of [evs] that satisfy [f]. *)
Definition count (f : Event -> bool) (evs : list Event) : nat :=
  length (List.filter f evs).

(** The rounds the loop of [_get] has left when its [tries] is [k]. *)
Definition rounds_left (self : Obj) (k : Z) : nat := Z.to_nat (tries self - k).

(** What a run of the loop of [_get] from [(self, w)] ends in: the object
    is kept, at most [n] GETs and no POST were sent, and with [n] rounds
    of fuel the loop has ended. *)
Definition get_post (self : Obj) (w : World) (n fuel : nat)
    (r : Res (option Response)) (s' : St) : Prop :=
  exists evs, s' = (self, extend w evs)
    /\ (count is_get evs <= n)%nat
    /\ count is_post evs = 0%nat
    /\ ((n <= fuel)%nat -> r <> Diverge).

(** A response that [_get] retries on: not a success, and its status not
    among the failures the caller accepts. *)
Definition unacceptable (okay_fail : list Z) (r : Response) : Prop :=
  ok r = false /\ status_code r ∉ okay_fail.

(** The event is the request [rq]. *)
Definition is_request (rq : Request) (e : Event) : bool :=
  match e with EvRequest rq' => bool_decide (rq' = rq) | _ => false end.

(** A run that keeps the object and sends no POST. *)
Definition quiet {A} (self : Obj) (w : World) (r : Res A) (s' : St) : Prop :=
  exists evs, s' = (self, extend w evs) /\ count is_post evs = 0%nat.

(** Computations that only look at their arguments: they end, and leave
    the state as it is. *)
Definition pure {A} (m : Meth A) : Prop :=
  forall s, (m s).2 = s /\ (m s).1 <> Diverge.

(** [gather] as a relation: the coroutines [ms] run one after the other
    from [s] to [s'], each to a value or to an exception. *)
Inductive runs_all {A} : list (Meth A) -> St -> list (A + exn) -> St -> Prop :=
| runs_nil s : runs_all [] s [] s
| runs_ret m ms s a s1 rs s2 :
    m s = (Ret a, s1) -> runs_all ms s1 rs s2 ->
    runs_all (m :: ms) s (inl a :: rs) s2
| runs_raise m ms s e s1 rs s2 :
    m s = (Raise e, s1) -> runs_all ms s1 rs s2 ->
    runs_all (m :: ms) s (inr e :: rs) s2.

(** The batch that a round of [Scraper.get] takes from [targets], and
    what it leaves. *)
Definition batch (self : Obj) (targets : list Entry.t) : list Entry.t :=
  (Scraper.pick (Z.to_nat (chunking self)) [] targets).1.
Definition remaining (self : Obj) (targets : list Entry.t) : list Entry.t :=
  (Scraper.pick (Z.to_nat (chunking self)) [] targets).2.

(** The entries of a batch whose retrieval ended in an exception and
    whose type is ['folder']. *)
Definition failed_folders (current : list Entry.t) (runs : list (unit + exn))
    : list Entry.t :=
  filter (fun i => Entry.type i = "folder")
    (Scraper.retarget_of current (map Scraper.is_exception runs)).

(** The GET that lists the folder at [path]. *)
Definition listing_request (self : Obj) (path : string) : Request :=
  GET (FOLDER_TARGET (str_opt (token self)) path) 60.

(** The events a fetch of [uri] may add: the GET of that [uri], the wait
    between two attempts, a line of log. *)
Definition fetch_event (self : Obj) (uri : string) (e : Event) : Prop :=
  e = EvRequest (GET uri (timeout self)) \/ e = EvSleep SLEEP_TIME \/ is_print e = true.

(** The waits of a run of the loop of [_get] that starts with
    [tries = k] and sends [gets] GETs: one before each GET, but for the
    GET of the round in which [tries] becomes [0]. *)
Definition waits_for (k : Z) (gets : nat) : nat :=
  if (k <? 0)%Z then pred gets else gets.

Definition fetch_post (self : Obj) (w : World) (uri : string) (okay_fail : list Z)
    (k : Z) (r : Res (option Response)) (s' : St) : Prop :=
  exists evs, s' = (self, extend w evs)
    /\ Forall (fetch_event self uri) evs
    /\ count is_sleep evs = waits_for k (count is_get evs)
    /\ (forall resp, r = Ret (Some resp) ->
          ok resp = true \/ status_code resp ∈ okay_fail).



(** The message of the [ValueError] of [attr_check]. *)
Definition unset_message (key : string) : string :=
  ("Calling this method requires the attribute '" +:+ key +:+ "' to be set")%string.

(** C5 as the specification words it: the fetch hands a response object
    back. *)
Definition returns_a_response (uri : string) (okay_fail : list Z) (s : St) : Prop :=
  exists r, (BaseDownload._get uri okay_fail s).1 = Ret (Some r).

End Vocabulary.

(** ** Objects and servers of the examples *)

Module Examples.
Import Demo.

(** A [Download] as [Scraper.get] builds it. *)
Definition file_dl : Obj :=
  BaseDownload.init CDownload (Some "out") (Some "/a.txt") (Some "tok") false false.

(** The same object with [verbose] set. *)
Definition verbose_dl : Obj :=
  BaseDownload.init CDownload (Some "out") (Some "/a.txt") (Some "tok") true false.

(** A [Download] built without [base], as [__init__] defaults it. *)
Definition baseless_dl : Obj :=
  BaseDownload.init CDownload None (Some "/a.txt") (Some "tok") false false.

(** A world in which the target of [file_dl] was written before. *)
Definition downloaded (server : list Event -> Request -> Outcome)
    : @World (env server) :=
  @Build_World (env server) [] ({[ "out/a.txt" := Some "old bytes" ]} : fsmap).

(** A [ZipDownload] as [Scraper.get] builds it. *)
Definition zip_dl : Obj :=
  BaseDownload.init CZipDownload (Some "out") (Some "/sub") (Some "tok") false false.

(** A server that exports: it issues the token [abc], reports the export
    half done at the first poll and done from the second on, and serves
    the archive. *)
Definition exporting : list Event -> Request -> Outcome :=
  fun h rq =>
    match rq with
    | POST _ _ => response 200 "{}"
    | GET uri _ =>
        if String.eqb uri (ZIP_TARGET "tok" "/sub") then response 200 "{zip_token: abc}"
        else if String.eqb uri (ZIP_PROGRESS "abc") then
          if existsb (is_request rq) h then response 200 "{zipped: 2, total: 2}"
          else response 200 "{zipped: 1, total: 2}"
        else if String.eqb uri (ZIP_FILE "abc") then response 200 "PK..."
        else response 404 "not found"
    end.

(** A server that rejects every export with status 400 and the error
    body of the Seafile API. *)
Definition rejecting := always (response 400 "{error_msg: too large}").

(** The scraper of the command line. *)
Definition scraper : Obj :=
  BaseDownload.init CScraper (Some "out") None (Some "tok") false false.

Definition starts_with (p s : string) : bool := String.prefix p s.

(** A server that rejects every export with status 400 and refuses the
    connection of every other GET. *)
Definition unlistable : list Event -> Request -> Outcome :=
  fun _ rq =>
    match rq with
    | GET uri _ =>
        if starts_with "https://seafile.rlp.net/api/v2.1/share-link-zip-task/" uri
        then response 400 "{error_msg: too large}"
        else Fails ConnectionError
    | POST _ _ => response 200 "{}"
    end.

(** A server that rejects every export with status 400, refuses the
    connection of every file download, and lists two children, the file
    [/a.txt] and the folder [/sub], for every path. *)
Definition listing : list Event -> Request -> Outcome :=
  fun _ rq =>
    match rq with
    | GET uri _ =>
        if starts_with "https://seafile.rlp.net/api/v2.1/share-link-zip-task/" uri
        then response 400 "{error_msg: too large}"
        else if String.eqb (String.substring (String.length uri - 10) 10 uri) "&mode=list"
        then response 200 "<listing>"
        else Fails ConnectionError
    | POST _ _ => response 200 "{}"
    end.

Definition a_txt : Entry.t :=
  {| Entry.link := Some "?p=/a.txt"; Entry.path := "/a.txt";
     Entry.name := "a.txt"; Entry.type := "file" |}.
Definition sub : Entry.t :=
  {| Entry.link := Some "?p=/sub"; Entry.path := "/sub";
     Entry.name := "sub"; Entry.type := "folder" |}.

(** A server that serves every file. *)
Definition serving := always (response 200 "file bytes").

(** A server on which no URI has a schema. *)
Definition schemaless := always (Fails MissingSchema).

(** A world in which the output directory exists. *)
Definition prepared (server : list Event -> Request -> Outcome)
    : @World (env server) :=
  @Build_World (env server) [] ({[ "out" := None ]} : fsmap).

(** The environment of [listing], with a page whose one anchor has no
    [href]. *)
Definition broken_env : Env := {|
  FS := fsmap;
  http := listing;
  json_loads := loads;
  py_str := str;
  time_ctime := fun _ => "Wed Nov  4 12:00:00 2026";
  os_path_exists := fun p f => bool_decide (is_Some (f !! p));
  os_path_split := split;
  os_makedirs := fun p f => Some (<[p := None]> f);
  open_wb_write := fun p b f => Some (<[p := Some b]> f);
  soup_select := fun _ _ => [ {| href := None; text := "a.txt" |} ];
  query_p := param_p;
|}.

(** A [ZipDownload] without [path]. *)
Definition pathless_dl : Obj :=
  BaseDownload.init CZipDownload (Some "out") None (Some "tok") false false.

(** A scraper without [token], and one with [--chunk-size 0]. *)
Definition tokenless : Obj :=
  BaseDownload.init CScraper (Some "out") None None false false.
Definition widthless : Obj :=
  {| cls := CScraper; verbose := false; base := Some "out"; path := None;
     token := Some "tok"; timeout := 60; tries := 5; chunking := 0;
     force := false; zip_token := PyNone |}.

(** A server that exports the root: it issues the token [abc], reports
    the export done and serves the archive. *)
Definition exporting_root : list Event -> Request -> Outcome :=
  fun _ rq =>
    match rq with
    | POST _ _ => response 200 "{}"
    | GET uri _ =>
        if String.eqb uri (ZIP_TARGET "tok" "/") then response 200 "{zip_token: abc}"
        else if String.eqb uri (ZIP_PROGRESS "abc") then
          response 200 "{zipped: 2, total: 2}"
        else if String.eqb uri (ZIP_FILE "abc") then response 200 "PK..."
        else response 404 "not found"
    end.


(** The arguments of a run with [--chunk-size 0]. *)
Definition zero_width : Args.t :=
  {| Args.token := "tok"; Args.output := Some "out"; Args.verbose := false;
     Args.chunk_size := 0; Args.force := false |}.


(** A server on which every request times out. *)
Definition timing_out := always (Fails Timeout).

(** A server that refuses every connection. *)
Definition refusing := always (Fails ConnectionError).

(** A server that answers every request with status 500. *)
Definition failing := always (response 500 "oops").

(** What [_get "u"] with [tries = 5] does on [failing]. *)
Definition six_gets : list Event :=
  [EvRequest (GET "u" 60); EvSleep 10; EvRequest (GET "u" 60); EvSleep 10;
   EvRequest (GET "u" 60); EvSleep 10; EvRequest (GET "u" 60); EvSleep 10;
   EvRequest (GET "u" 60); EvSleep 10; EvRequest (GET "u" 60)].

End Examples.

(** * Properties *)

(** ** Rules of the weakest precondition *)

Lemma wp_ret {S A} (a : A) (Q : Res A -> S -> Prop) s : Q (Ret a) s -> wp (ret a) Q s.
Proof. done. Qed.

Lemma wp_raise {S A} e (Q : Res A -> S -> Prop) s : Q (Raise e) s -> wp (raise e) Q s.
Proof. done. Qed.

Lemma wp_diverge {S A} (Q : Res A -> S -> Prop) s : Q Diverge s -> wp diverge Q s.
Proof. done. Qed.

Lemma wp_bind {S A B} (m : M S A) (k : A -> M S B) (Q : Res B -> S -> Prop) s :
  wp m (fun r s' =>
          match r with
          | Ret a => wp (k a) Q s'
          | Raise e => Q (Raise e) s'
          | Diverge => Q Diverge s'
          end) s ->
  wp (bind m k) Q s.
Proof. unfold wp, bind. by destruct (m s) as [[a|e|] s']. Qed.

Lemma wp_mono {S A} (m : M S A) (Q Q' : Res A -> S -> Prop) s :
  wp m Q s -> (forall r s', Q r s' -> Q' r s') -> wp m Q' s.
Proof. unfold wp. auto. Qed.

Lemma wp_eq {S A} (m : M S A) (Q : Res A -> S -> Prop) s :
  wp m Q s <-> forall r s', m s = (r, s') -> Q r s'.
Proof.
  unfold wp. split.
  - intros HQ r s' E. by rewrite E in HQ.
  - intros HQ. apply HQ, surjective_pairing.
Qed.

Lemma wp_run {S A} (m : M S A) (Q : Res A -> S -> Prop) s :
  wp m Q s -> exists r s', m s = (r, s') /\ Q r s'.
Proof. unfold wp. destruct (m s) as [r s']. eauto. Qed.

Section Frame.
Context `{Env}.
Import BaseDownload.

Lemma extend_nil w : extend w [] = w.
Proof. destruct w; unfold extend; simpl. by rewrite app_nil_r. Qed.

Lemma extend_extend w a b : extend (extend w a) b = extend w (a ++ b).
Proof. unfold extend; simpl. by rewrite app_assoc. Qed.

Lemma emit_extend e w : emit e w = extend w [e].
Proof. reflexivity. Qed.

Lemma count_app f a b : count f (a ++ b) = (count f a + count f b)%nat.
Proof. unfold count. by rewrite List.filter_app, length_app. Qed.

Lemma wp_get_self (Q : Res Obj -> St -> Prop) s : Q (Ret s.1) s -> wp get_self Q s.
Proof. done. Qed.

Lemma wp_get_world (Q : Res World -> St -> Prop) s : Q (Ret s.2) s -> wp get_world Q s.
Proof. done. Qed.

Lemma wp_do_emit e (Q : Res unit -> St -> Prop) self w :
  Q (Ret tt) (self, extend w [e]) -> wp (do_emit e) Q (self, w).
Proof. done. Qed.

Lemma wp_request rq (Q : Res Outcome -> St -> Prop) self w :
  Q (Ret (http (trace w) rq)) (self, extend w [EvRequest rq]) ->
  wp (request rq) Q (self, w).
Proof. done. Qed.

(** [_print] adds one line when [verbose] is set, and nothing otherwise. *)
Lemma _print_spec arg self w :
  _print arg (self, w) =
    (Ret tt,
     (self,
      extend w (if verbose self
                then [EvPrint (time_ctime (trace w) +:+ " " +:+ repr self +:+ " " +:+ arg)]
                else []))).
Proof.
  unfold _print, bind, get_self, get_world, print, do_emit, ret; simpl.
  destruct (verbose self); [done|]. by rewrite extend_nil.
Qed.

Lemma wp__print arg (Q : Res unit -> St -> Prop) self w :
  (forall evs, (evs = [] \/ exists line, evs = [EvPrint line]) ->
               Q (Ret tt) (self, extend w evs)) ->
  wp (_print arg) Q (self, w).
Proof.
  intros HQ. unfold wp. rewrite _print_spec. simpl. apply HQ.
  destruct (verbose self); eauto.
Qed.

End Frame.

(** ** The fetcher [_get] *)

Section Fetcher.
Context `{Env}.
Import BaseDownload.

Lemma _get_loop_spec fuel uri okay_fail k response self w :
  wp (_get_loop fuel uri okay_fail k response)
     (get_post self w (rounds_left self k) fuel) (self, w).
Proof.
  revert k response w.
  induction fuel as [|fuel IH]; intros k response w.
  - cbn -[Z.ltb]. apply wp_bind, wp_get_self; simpl.
    destruct (Z.ltb_spec k (tries self)).
    + apply wp_diverge. exists []. rewrite extend_nil. split; [done|].
      split; [cbn; lia|]. split; [done|]. unfold rounds_left; lia.
    + apply wp_ret. exists []. rewrite extend_nil. split; [done|].
      split; [cbn; lia|]. split; done.
  - cbn [_get_loop].
    apply wp_bind, wp_get_self; simpl.
    destruct (Z.ltb_spec k (tries self)) as [Hlt|Hge].
    2:{ apply wp_ret. exists []. rewrite extend_nil. split; [done|].
        split; [cbn; lia|]. split; done. }
    assert (Hrl : rounds_left self k = S (rounds_left self (k + 1))).
    { unfold rounds_left. lia. }
    assert (Hafter : forall resp evs0,
      count is_get evs0 = 1%nat -> count is_post evs0 = 0%nat ->
      wp (match resp with
          | None => raise (UnboundLocalError "response")
          | Some r =>
              if negb (ok r) then
                _print ("Non-OK status (" +:+ pretty (status_code r) +:+ ") at " +:+ uri) ;;;
                if bool_decide (status_code r ∈ okay_fail) then ret (Some r)
                else _get_loop fuel uri okay_fail (k + 1)%Z (Some r)
              else ret (Some r)
          end)
        (get_post self w (rounds_left self k) (S fuel)) (self, extend w evs0)).
    { intros resp evs0 Hg Hp. destruct resp as [r|].
      2:{ apply wp_raise. exists evs0. rewrite Hg, Hrl. repeat split; try done. lia. }
      destruct (negb (ok r)).
      2:{ apply wp_ret. exists evs0. rewrite Hg, Hrl. repeat split; try done. lia. }
      apply wp_bind, wp__print. intros evs [-> | [line ->]]; rewrite extend_extend.
      all: case_bool_decide.
      all: try (apply wp_ret; eexists; split; [reflexivity|];
                rewrite !count_app, Hg, Hp, Hrl; cbn; repeat split; try done; lia).
      all: eapply wp_mono; [apply IH|].
      all: intros r' s' (evs' & -> & Hc & Hq & Hd); rewrite extend_extend;
           eexists; split; [reflexivity|]; rewrite !count_app, Hg, Hp, Hq, Hrl; cbn;
           repeat split; try lia.
      all: intros; apply Hd; lia. }
    apply wp_bind.
    assert (Hsleep : exists evs,
      wp (if (0 <? k + 1)%Z then sleep SLEEP_TIME else ret tt)
         (fun r s' => r = Ret tt /\ s' = (self, extend w evs)) (self, w)
      /\ count is_get evs = 0%nat /\ count is_post evs = 0%nat).
    { destruct (0 <? k + 1)%Z.
      - exists [EvSleep SLEEP_TIME]. split; [by apply wp_do_emit|done].
      - exists []. rewrite extend_nil. split; [by apply wp_ret|done]. }
    destruct Hsleep as (evs & Hs & Hsg & Hsp).
    eapply wp_mono; [apply Hs|]. intros r s' [-> ->].
    apply wp_bind, wp_request. rewrite extend_extend.
    set (evs1 := evs ++ [EvRequest (GET uri (timeout self))]).
    assert (Hg1 : count is_get evs1 = 1%nat)
      by (unfold evs1; rewrite count_app, Hsg; done).
    assert (Hp1 : count is_post evs1 = 0%nat)
      by (unfold evs1; rewrite count_app, Hsp; done).
    destruct (http _ _) as [r|[]].
    + by apply (Hafter (Some r)).
    + apply wp_bind, wp__print. intros evs2 [-> | [line ->]]; rewrite extend_extend;
        apply (Hafter response); rewrite count_app; try rewrite Hg1; try rewrite Hp1; done.
    + apply wp_bind, wp__print. intros evs2 [-> | [line ->]]; rewrite extend_extend;
        apply (Hafter response); rewrite count_app; try rewrite Hg1; try rewrite Hp1; done.
    + apply wp_bind, wp__print. intros evs2 [-> | [line ->]]; rewrite extend_extend;
        apply wp_ret; eexists; (split; [reflexivity|]);
        rewrite !count_app, Hg1, Hp1, Hrl; cbn; repeat split; try done; lia.
    + apply wp_raise. exists evs1. rewrite Hg1, Hp1, Hrl. repeat split; try done; lia.
Qed.

(** [_get] always ends, keeps its object and the file system, sends no
    POST and at most [tries + 1] GETs. *)
Lemma _get_spec uri okay_fail self w :
  wp (_get uri okay_fail)
     (fun r s' => exists evs, s' = (self, extend w evs)
        /\ (count is_get evs <= Z.to_nat (tries self + 1))%nat
        /\ count is_post evs = 0%nat
        /\ r <> Diverge) (self, w).
Proof.
  unfold _get. apply wp_bind, wp_get_self; simpl.
  eapply wp_mono; [apply _get_loop_spec|].
  intros r s' (evs & -> & Hg & Hp & Hd). exists evs.
  unfold rounds_left in *. replace (tries self - -1)%Z with (tries self + 1)%Z in * by lia.
  repeat split; try done. by apply Hd.
Qed.

(** C3: a fetch with [tries = n] returns a terminal result after at most
    [n + 1] GET attempts, whatever the server does: time out, refuse the
    connection or answer with a status that is no success. *)
Theorem get_attempts_bounded uri okay_fail self w r s' :
  (0 <= tries self)%Z ->
  _get uri okay_fail (self, w) = (r, s') ->
  r <> Diverge
  /\ exists evs, s' = (self, extend w evs)
       /\ (Z.of_nat (count is_get evs) <= tries self + 1)%Z.
Proof.
  intros Hn E. pose proof (_get_spec uri okay_fail self w) as Hwp.
  apply wp_eq with (r := r) (s' := s') in Hwp; [|done].
  destruct Hwp as (evs & -> & Hg & _ & Hd). split; [done|].
  exists evs. split; [done|]. lia.
Qed.

(** When every attempt is answered by a response that is retried on, the
    loop runs all its rounds and falls off its end. *)
Lemma _get_loop_unacceptable fuel uri okay_fail k response self w :
  (forall h, exists r,
      http h (GET uri (timeout self)) = Responds r /\ unacceptable okay_fail r) ->
  (rounds_left self k <= fuel)%nat ->
  wp (_get_loop fuel uri okay_fail k response)
     (fun r s' => r = Ret None
        /\ exists evs, s' = (self, extend w evs)
             /\ count is_get evs = rounds_left self k) (self, w).
Proof.
  intros Hbad. revert k response w.
  induction fuel as [|fuel IH]; intros k response w Hfuel.
  - cbn -[Z.ltb]. apply wp_bind, wp_get_self; simpl.
    destruct (Z.ltb_spec k (tries self)); [unfold rounds_left in Hfuel; lia|].
    apply wp_ret. split; [done|]. exists []. rewrite extend_nil. split; [done|].
    unfold rounds_left. cbn. lia.
  - cbn [_get_loop]. apply wp_bind, wp_get_self; simpl.
    destruct (Z.ltb_spec k (tries self)) as [Hlt|Hge].
    2:{ apply wp_ret. split; [done|]. exists []. rewrite extend_nil. split; [done|].
        unfold rounds_left. cbn. lia. }
    assert (Hrl : rounds_left self k = S (rounds_left self (k + 1)))
      by (unfold rounds_left; lia).
    apply wp_bind.
    assert (Hsleep : exists evs,
      wp (if (0 <? k + 1)%Z then sleep SLEEP_TIME else ret tt)
         (fun r s' => r = Ret tt /\ s' = (self, extend w evs)) (self, w)
      /\ count is_get evs = 0%nat).
    { destruct (0 <? k + 1)%Z.
      - exists [EvSleep SLEEP_TIME]. split; [by apply wp_do_emit|done].
      - exists []. rewrite extend_nil. split; [by apply wp_ret|done]. }
    destruct Hsleep as (pre & Hs & Hsg).
    eapply wp_mono; [apply Hs|]. intros r0 s0 [-> ->].
    apply wp_bind, wp_request. rewrite extend_extend.
    destruct (Hbad (trace (extend w pre))) as (r & -> & Hok & Hin).
    rewrite Hok. simpl.
    apply wp_bind, wp__print. intros evs Hevs. rewrite extend_extend.
    rewrite bool_decide_eq_false_2 by done.
    eapply wp_mono; [apply (IH (k + 1)%Z (Some r)); lia|].
    intros r' s' (-> & evs' & -> & Hc). split; [done|].
    rewrite extend_extend. eexists. split; [reflexivity|].
    rewrite !count_app, Hc, Hsg, Hrl.
    destruct Hevs as [-> | [line ->]]; cbn; lia.
Qed.

(** C5, amended: when every attempt is answered with a status that is no
    success and not in [okay_fail], [_get] makes all its [tries + 1]
    attempts and then returns [None], not the last response; it does not
    raise. *)
Theorem get_exhausted_returns_none uri okay_fail self w :
  (forall h, exists r,
      http h (GET uri (timeout self)) = Responds r /\ unacceptable okay_fail r) ->
  exists evs,
    _get uri okay_fail (self, w) = (Ret None, (self, extend w evs))
    /\ count is_get evs = Z.to_nat (tries self + 1).
Proof.
  intros Hbad.
  assert (Hwp : wp (_get uri okay_fail)
    (fun r s' => r = Ret None
       /\ exists evs, s' = (self, extend w evs)
            /\ count is_get evs = Z.to_nat (tries self + 1)) (self, w)).
  { unfold _get. apply wp_bind, wp_get_self; simpl.
    eapply wp_mono; [apply _get_loop_unacceptable; [done|]|].
    - unfold rounds_left. lia.
    - intros r s' (-> & evs & -> & Hc). split; [done|]. exists evs. split; [done|].
      rewrite Hc. unfold rounds_left. lia. }
  apply wp_run in Hwp as (r & s' & -> & -> & evs & -> & Hc). eauto.
Qed.

(** A timeout or a refused connection at the first attempt: the local
    [response] is still unbound when [response.ok] is read, so the fetch
    ends there, after one GET and no wait. *)
Lemma _get_first_attempt_fails uri okay_fail self w e :
  (0 <= tries self)%Z ->
  http (trace w) (GET uri (timeout self)) = Fails e ->
  e = Timeout \/ e = ConnectionError ->
  exists evs,
    _get uri okay_fail (self, w)
      = (Raise (UnboundLocalError "response"),
         (self, extend w (EvRequest (GET uri (timeout self)) :: evs)))
    /\ count is_get evs = 0%nat /\ count is_sleep evs = 0%nat.
Proof.
  intros Hn Hhttp He.
  assert (Hwp : wp (_get uri okay_fail)
    (fun r s' => r = Raise (UnboundLocalError "response")
       /\ exists evs, s' = (self, extend w (EvRequest (GET uri (timeout self)) :: evs))
            /\ count is_get evs = 0%nat /\ count is_sleep evs = 0%nat) (self, w)).
  { unfold _get. apply wp_bind, wp_get_self; simpl.
    destruct (Z.to_nat (tries self + 1)) as [|fuel] eqn:Hf; [lia|].
    cbn [_get_loop]. apply wp_bind, wp_get_self; simpl.
    destruct (Z.ltb_spec (-1) (tries self)); [|lia].
    apply wp_bind, wp_ret, wp_bind, wp_request. rewrite Hhttp.
    destruct He as [-> | ->]; apply wp_bind, wp__print; intros evs Hevs;
      rewrite extend_extend; apply wp_raise; (split; [done|]);
      exists evs; (split; [done|]); destruct Hevs as [-> | [line ->]]; done. }
  apply wp_run in Hwp as (r & s' & -> & -> & evs & -> & Hc). eauto.
Qed.

End Fetcher.

(** The bound at a [Download] with the default [tries = 5], on a server
    that answers 500 to everything: six GETs, then [None]. *)
Lemma get_attempts_bounded_witness :
  let env := Demo.env Examples.failing in
  let w := Demo.empty_world Examples.failing in
  (0 <= tries Examples.file_dl)%Z
  /\ (Ret None : Res (option Response)) <> Diverge
  /\ exists evs,
       (Examples.file_dl, @extend env w Examples.six_gets)
         = (Examples.file_dl, @extend env w evs)
       /\ (Z.of_nat (count is_get evs) <= tries Examples.file_dl + 1)%Z.
Proof.
  intros env w. split; [done|].
  apply (@get_attempts_bounded env "u" [] Examples.file_dl w); [done|].
  vm_compute. reflexivity.
Defined.

(** C4: on a server on which the first attempt times out (or the
    connection is refused), [_get] makes no second attempt: the
    [UnboundLocalError] of the unbound [response] leaves the fetcher
    after one GET and no wait. *)
Theorem get_first_failure_escapes :
  @BaseDownload._get (Demo.env Examples.timing_out) "u" []
      (Examples.file_dl, Demo.empty_world Examples.timing_out)
    = (Raise (UnboundLocalError "response"),
       (Examples.file_dl,
        extend (Demo.empty_world Examples.timing_out) [EvRequest (GET "u" 60)]))
  /\ @BaseDownload._get (Demo.env Examples.refusing) "u" []
      (Examples.file_dl, Demo.empty_world Examples.refusing)
    = (Raise (UnboundLocalError "response"),
       (Examples.file_dl,
        extend (Demo.empty_world Examples.refusing) [EvRequest (GET "u" 60)])).
Proof. split; vm_compute; reflexivity. Qed.

(** C5 as worded fails: every attempt is answered with status 500, and
    the fetch returns no response. *)
Lemma get_exhausted_counterexample :
  (forall h, exists r,
      @http (Demo.env Examples.failing) h (GET "u" (timeout Examples.file_dl))
        = Responds r
      /\ @unacceptable [] r)
  /\ ~ @returns_a_response (Demo.env Examples.failing) "u" []
        (Examples.file_dl, Demo.empty_world Examples.failing).
Proof.
  split.
  - intros h. eexists. split; [reflexivity|]. split; [done|]. apply not_elem_of_nil.
  - intros [r Hr]. vm_compute in Hr. discriminate.
Qed.

(** The amended C5 on that server: six GETs, then [None]. *)
Lemma get_exhausted_returns_none_witness :
  (forall h, exists r,
      @http (Demo.env Examples.failing) h (GET "u" (timeout Examples.file_dl))
        = Responds r
      /\ @unacceptable [] r)
  /\ exists evs,
       @BaseDownload._get (Demo.env Examples.failing) "u" []
           (Examples.file_dl, Demo.empty_world Examples.failing)
         = (Ret None, (Examples.file_dl, extend (Demo.empty_world Examples.failing) evs))
       /\ count is_get evs = Z.to_nat (tries Examples.file_dl + 1).
Proof.
  assert (Hbad : forall h, exists r,
      @http (Demo.env Examples.failing) h (GET "u" (timeout Examples.file_dl))
        = Responds r
      /\ @unacceptable [] r).
  { intros h. eexists. split; [reflexivity|]. split; [done|]. apply not_elem_of_nil. }
  split; [exact Hbad|].
  apply (@get_exhausted_returns_none (Demo.env Examples.failing) "u" []
           Examples.file_dl (Demo.empty_world Examples.failing) Hbad).
Defined.

(** ** [download] *)

Section Download.
Context `{Env}.
Import BaseDownload.

(** C10: with [base] unset, [download] raises a [TypeError] at the
    concatenation of the target path: whatever [get] the class has, it is
    not run, nothing is written or logged, and the call never returns. *)
Theorem download_without_base (get : Meth Content) self w :
  base self = None ->
  exists msg, download get (self, w) = (Raise (TypeError msg), (self, w)).
Proof.
  intros Hb. unfold download, bind, get_self, str_add; simpl. rewrite Hb.
  destruct (path self); eauto.
Qed.

(** C9, amended: when the target exists and [force] is off, [download]
    runs no [get] and writes nothing; the world is the one before, plus
    the line "already exists" when [verbose] is set (and no line
    otherwise). *)
Theorem download_skips_existing (get : Meth Content) self w b p :
  base self = Some b ->
  path self = Some p ->
  force self = false ->
  os_path_exists ((b +:+ p) +:+ EXT (cls self)) (fs w) = true ->
  download get (self, w)
    = (Ret tt,
       (self,
        extend w
          (if verbose self
           then [EvPrint (time_ctime (trace w) +:+ " " +:+ repr self +:+ " "
                            +:+ "File at '" +:+ ((b +:+ p) +:+ EXT (cls self))
                            +:+ "' already exists")]
           else []))).
Proof.
  intros Hb Hp Hf Hex. unfold download, bind at 1, get_self at 1; simpl.
  rewrite Hb, Hp. unfold bind at 1; simpl. unfold bind at 1; simpl.
  rewrite Hex, Hf. simpl. apply _print_spec.
Qed.

End Download.

Lemma download_without_base_witness :
  base Examples.baseless_dl = None
  /\ exists msg,
       @BaseDownload.download (Demo.env Examples.failing) Download.get
           (Examples.baseless_dl, Demo.empty_world Examples.failing)
         = (Raise (TypeError msg),
            (Examples.baseless_dl, Demo.empty_world Examples.failing)).
Proof.
  split; [reflexivity|].
  apply (@download_without_base (Demo.env Examples.failing) Download.get
           Examples.baseless_dl (Demo.empty_world Examples.failing)).
  reflexivity.
Defined.

(** C9 as worded fails: with the default [verbose = False] the skip
    leaves no line behind. *)
Lemma download_skip_counterexample :
  let w := Examples.downloaded Examples.failing in
  @os_path_exists (Demo.env Examples.failing) "out/a.txt" (fs w) = true
  /\ force Examples.file_dl = false
  /\ @BaseDownload.download (Demo.env Examples.failing) Download.get
        (Examples.file_dl, w) = (Ret tt, (Examples.file_dl, w))
  /\ count is_print (trace w) = 0%nat.
Proof. repeat split; vm_compute; reflexivity. Qed.

Lemma download_skips_existing_witness :
  let env := Demo.env Examples.failing in
  let w := Examples.downloaded Examples.failing in
  @BaseDownload.download env Download.get (Examples.verbose_dl, w)
    = (Ret tt,
       (Examples.verbose_dl,
        @extend env w
          [EvPrint "Wed Nov  4 12:00:00 2026 <Download for '/a.txt' from 'tok'> File at 'out/a.txt' already exists"])).
Proof.
  intros env w.
  apply (@download_skips_existing env Download.get Examples.verbose_dl w "out" "/a.txt");
    vm_compute; reflexivity.
Defined.

(** ** The archive export [ZipDownload] *)

Section Zip.
Context `{Env}.
Import BaseDownload ZipDownload.

Lemma wp_try_finally {A} (body : Meth A) (cleanup : Meth unit) (Q : Res A -> St -> Prop) s :
  wp body (fun r s' =>
     match r with
     | Diverge => Q Diverge s'
     | _ => wp cleanup (fun c s'' =>
              match c with
              | Ret _ => Q r s''
              | Raise e => Q (Raise e) s''
              | Diverge => Q Diverge s''
              end) s'
     end) s ->
  wp (try_finally body cleanup) Q s.
Proof.
  unfold wp, try_finally. destruct (body s) as [[a|e|] s']; simpl; try done.
  all: by destruct (cleanup s') as [[[]|e'|] s''].
Qed.

Lemma wp_pure {A} (m : Meth A) (Q : Res A -> St -> Prop) s :
  pure m -> (forall r, r <> Diverge -> Q r s) -> wp m Q s.
Proof. intros Hp HQ. unfold wp. destruct (Hp s) as [-> Hd]. by apply HQ. Qed.

Lemma pure_getitem x key : pure (getitem x key).
Proof. intros s. destruct x; try done. simpl. by destruct (dict_get key d). Qed.

Lemma pure_setitem x key v : pure (setitem x key v).
Proof. intros s. by destruct x. Qed.

Lemma pure_deref response attr : pure (deref response attr).
Proof. intros s. by destruct response. Qed.

Lemma pure_content_of response : pure (content_of response).
Proof. intros s. by destruct response. Qed.

Lemma pure_loads response : pure (loads response).
Proof.
  intros s. destruct response as [r|]; [|done].
  unfold loads, content_of, bind; simpl. by destruct (json_loads (content r)).
Qed.

Lemma wp_attr_check {A} keys (m : Meth A) (Q : Res A -> St -> Prop) s :
  (forall e, Q (Raise e) s) -> wp m Q s -> wp (attr_check keys m) Q s.
Proof.
  intros Hr Hm. induction keys as [|key keys IH]; [done|].
  cbn [attr_check]. apply wp_bind, wp_get_self.
  destruct (attr_is_none s.1 key) as [[]|]; try done; by apply wp_raise.
Qed.

Lemma quiet_nil {A} self w (r : Res A) : quiet self w r (self, w).
Proof. exists []. by rewrite extend_nil. Qed.

Lemma quiet_trans {A B} self w evs (r : Res A) (r' : Res B) s' :
  count is_post evs = 0%nat -> quiet self (extend w evs) r s' -> quiet self w r' s'.
Proof.
  intros Hc (evs' & -> & Hc'). exists (evs ++ evs'). rewrite extend_extend.
  split; [done|]. rewrite count_app. lia.
Qed.

Lemma wp__get_quiet uri okay_fail (Q : Res (option Response) -> St -> Prop) self w :
  (forall r s', r <> Diverge -> quiet self w r s' -> Q r s') ->
  wp (_get uri okay_fail) Q (self, w).
Proof.
  intros HQ. eapply wp_mono; [apply _get_spec|].
  intros r s' (evs & -> & _ & Hp & Hd). apply HQ; [done|]. by exists evs.
Qed.

Lemma wp__print_quiet arg (Q : Res unit -> St -> Prop) self w :
  (forall s', quiet self w (Ret tt) s' -> Q (Ret tt) s') ->
  wp (_print arg) Q (self, w).
Proof.
  intros HQ. apply wp__print. intros evs Hevs. apply HQ. exists evs. split; [done|].
  by destruct Hevs as [-> | [line ->]].
Qed.

Lemma check_zip_status_quiet self w :
  wp check_zip_status (fun r s' => r <> Diverge /\ quiet self w r s') (self, w).
Proof.
  unfold check_zip_status. apply wp_attr_check.
  { intros e. split; [done|]. apply quiet_nil. }
  apply wp_bind, wp_get_self; simpl. apply wp_bind, wp__get_quiet.
  intros r s' Hd Hq. destruct r as [resp|e|]; [| |done].
  - apply wp_pure; [apply pure_loads|]. intros r Hr. split; [done|].
    destruct Hq as (evs & -> & Hc). by exists evs.
  - split; [done|]. destruct Hq as (evs & -> & Hc). by exists evs.
Qed.

Lemma get_zip_quiet self w :
  wp get_zip (fun r s' => r <> Diverge /\ quiet self w r s') (self, w).
Proof.
  unfold get_zip. apply wp_attr_check.
  { intros e. split; [done|]. apply quiet_nil. }
  apply wp_bind, wp_get_self; simpl. apply wp_bind, wp__get_quiet.
  intros r s' Hd Hq. destruct r as [resp|e|]; [| |done].
  - apply wp_pure; [apply pure_content_of|]. intros r Hr. split; [done|].
    destruct Hq as (evs & -> & Hc). by exists evs.
  - split; [done|]. destruct Hq as (evs & -> & Hc). by exists evs.
Qed.

Lemma poll_quiet fuel self w :
  wp (poll fuel) (quiet self w) (self, w).
Proof.
  revert w. induction fuel as [|fuel IH]; intros w.
  - apply wp_diverge, quiet_nil.
  - cbn [poll]. apply wp_bind. eapply wp_mono; [apply check_zip_status_quiet|].
    intros r s' (Hd & evs & -> & Hc).
    destruct r as [progress|e|]; [| by exists evs | done].
    apply wp_bind, wp_get_self; simpl.
    apply wp_bind, wp_pure; [apply pure_getitem|]. intros [zipped|e|] ?; [|by exists evs|done].
    apply wp_bind, wp_pure; [apply pure_getitem|]. intros [total|e|] ?; [|by exists evs|done].
    apply wp_bind, wp__print_quiet. intros s' (evs1 & -> & Hc1). rewrite extend_extend.
    assert (Hc2 : count is_post (evs ++ evs1) = 0%nat) by (rewrite count_app; lia).
    apply wp_bind, wp_pure; [apply pure_getitem|].
    intros [zipped'|e|] ?; [|by eexists|done].
    apply wp_bind, wp_pure; [apply pure_getitem|].
    intros [total'|e|] ?; [|by eexists|done].
    destruct (py_eq zipped' total').
    + apply wp_ret. by eexists.
    + apply wp_bind, wp_do_emit. rewrite extend_extend.
      eapply wp_mono; [apply IH|]. intros r s'. apply quiet_trans.
      rewrite count_app, Hc2. done.
Qed.

Lemma wp_put_zip_token v (Q : Res unit -> St -> Prop) self w :
  Q (Ret tt) (set_zip_token v self, w) -> wp (put_zip_token v) Q (self, w).
Proof. done. Qed.

Lemma set_zip_token_same self : set_zip_token (zip_token self) self = self.
Proof. by destruct self. Qed.

Lemma set_zip_token_twice v v' self :
  set_zip_token v (set_zip_token v' self) = set_zip_token v self.
Proof. done. Qed.

(** The initiation sends no POST; of the object it changes [zip_token]
    at most. *)
Lemma initiate_zip_spec self w :
  wp initiate_zip
     (fun r s' => r <> Diverge
        /\ exists v evs, s' = (set_zip_token v self, extend w evs)
             /\ count is_post evs = 0%nat) (self, w).
Proof.
  assert (Hsame : forall (r : Res pyval) s', r <> Diverge -> quiet self w r s' ->
            r <> Diverge /\ exists v evs, s' = (set_zip_token v self, extend w evs)
                           /\ count is_post evs = 0%nat).
  { intros r s' Hd (evs & -> & Hc). split; [done|].
    exists (zip_token self), evs. by rewrite set_zip_token_same. }
  unfold initiate_zip. apply wp_attr_check.
  { intros e. apply Hsame; [done|apply quiet_nil]. }
  apply wp_bind, wp_get_self; simpl. apply wp_bind, wp__get_quiet.
  intros r s' Hd Hq. destruct r as [resp|e|]; [|by apply Hsame|done].
  destruct Hq as (evs & -> & Hc).
  assert (Hq : forall r : Res pyval, quiet self w r (self, extend w evs)) by (by exists evs).
  apply wp_bind, wp_pure; [apply pure_loads|].
  intros [token_response|e|] ?; [|by apply Hsame|done].
  apply wp_bind, wp_pure; [apply pure_deref|].
  intros [r|e|] ?; [|by apply Hsame|done].
  apply wp_bind, wp_pure; [apply pure_setitem|].
  intros [token_response'|e|] ?; [|by apply Hsame|done].
  apply wp_bind. destruct (ok r).
  - apply wp_bind, wp_pure; [apply pure_getitem|].
    intros [v|e|] ?; [|by apply Hsame|done].
    apply wp_put_zip_token, wp_ret. split; [done|]. by exists v, evs.
  - apply wp_ret, wp_ret. by apply Hsame.
Qed.

Lemma count_request_post uri data evs :
  (count (is_request (POST uri data)) evs <= count is_post evs)%nat.
Proof.
  induction evs as [|e evs IH]; [done|].
  unfold count in *. destruct e as [[]| |]; simpl; try done.
  all: case_bool_decide; simpl; try done; lia.
Qed.

(** The teardown of the context manager, on an object that holds a
    token: one POST, the release of that token. *)
Lemma teardown_spec resource self w :
  zip_token self <> PyNone ->
  exists c evs,
    teardown resource (self, w) = (c, (self, extend w evs))
    /\ c <> Diverge
    /\ count is_post evs = 1%nat
    /\ count (is_request (release_request (zip_token self))) evs = 1%nat.
Proof.
  intros Htok.
  assert (Hwp : wp (teardown resource)
     (fun r s' => r <> Diverge
        /\ exists evs, s' = (self, extend w evs)
             /\ count is_post evs = 1%nat
             /\ count (is_request (release_request (zip_token self))) evs = 1%nat)
     (self, w)).
  { unfold teardown. apply wp_bind, wp_do_emit. apply wp_bind.
    unfold cancel_zip. cbn [attr_check]. apply wp_bind, wp_get_self. simpl.
    destruct (zip_token self) eqn:Hz; try done.
    all: apply wp_bind, wp_get_self; simpl; rewrite Hz; apply wp_bind, wp_request;
         rewrite extend_extend.
    all: destruct (http _ _) as [resp|e].
    all: try (apply wp_raise; split; [done|]; eexists; split; [reflexivity|];
              unfold count; simpl; rewrite bool_decide_eq_true_2 by done; done).
    all: apply wp_ret, wp__print; intros evs Hevs; rewrite extend_extend;
         (split; [done|]); eexists; (split; [reflexivity|]);
         destruct Hevs as [-> | [line ->]]; unfold count; simpl;
         rewrite bool_decide_eq_true_2 by done; done. }
  apply wp_run in Hwp as (c & s' & -> & Hc & evs & -> & Hp & Hrel). eauto 10.
Qed.

Lemma getitem_dict d key v :
  dict_get key d = Some v -> getitem (PyDict d) key = ret v.
Proof. intros Hd. unfold getitem. by rewrite Hd. Qed.

(** The block of [get] sets [zip_token] to the token of the resource and
    sends no POST. *)
Lemma get_block_spec fuel d tok self w :
  dict_get "zip_token" d = Some tok ->
  exists r evs,
    get_block fuel (PyDict d) (self, w) = (r, (set_zip_token tok self, extend w evs))
    /\ count is_post evs = 0%nat.
Proof.
  intros Hd. set (self2 := set_zip_token tok self).
  assert (Hwp : wp (get_block fuel (PyDict d)) (quiet self2 w) (self, w)).
  { unfold get_block. rewrite (getitem_dict _ _ _ Hd).
    apply wp_bind, wp_ret, wp_bind, wp_put_zip_token. fold self2.
    apply wp_bind, wp_pure; [apply pure_getitem|].
    intros [status|e|] ?; [|apply quiet_nil|done].
    destruct (py_eq status (PyInt 400)).
    - apply wp_bind, wp_get_self, wp_bind, wp_pure; [apply pure_getitem|].
      intros [error_msg|e|] ?; [|apply quiet_nil|done]. apply wp_raise, quiet_nil.
    - apply wp_bind. eapply wp_mono; [apply poll_quiet|].
      intros [[]|e|] s' (evs & -> & Hc); [|by exists evs..].
      apply wp_bind, wp__print_quiet. intros s' (evs1 & -> & Hc1). rewrite extend_extend.
      apply wp_bind. eapply wp_mono; [apply get_zip_quiet|].
      intros r s' (Hr & evs2 & -> & Hc2). rewrite extend_extend.
      assert (count is_post ((evs ++ evs1) ++ evs2) = 0%nat) by (rewrite !count_app; lia).
      destruct r as [content|e|]; [|by eexists|done].
      apply wp_ret. by eexists. }
  apply wp_run in Hwp as (r & s' & -> & evs & -> & Hc). eauto.
Qed.

(** C1: when the initiation hands back a resource that carries a token
    (one that is not [None]), every run of [get] that ends, by a return or
    by any exception of the polling, of the fetch or of the block itself,
    has sent exactly one POST, and that POST is the release of that
    token. *)
Theorem zip_get_releases_once fuel self w d self1 w1 tok r s' :
  initiate_zip (self, w) = (Ret (PyDict d), (self1, w1)) ->
  dict_get "zip_token" d = Some tok ->
  tok <> PyNone ->
  get fuel (self, w) = (r, s') ->
  r <> Diverge ->
  exists evs,
    s'.2 = extend w evs
    /\ count is_post evs = 1%nat
    /\ count (is_request (release_request tok)) evs = 1%nat.
Proof.
  intros Hinit Hd Htok Hget Hr.
  pose proof (initiate_zip_spec self w) as Hi.
  apply wp_eq with (r := Ret (PyDict d)) (s' := (self1, w1)) in Hi; [|done].
  destruct Hi as (_ & v & evs0 & [= -> ->] & Hc0).
  pose proof (count_request_post ZIP_CANCEL ("token=" +:+ py_str tok)) as Hle.
  fold (release_request tok) in Hle.
  unfold get, get_zip_token, bind at 1 in Hget. rewrite Hinit in Hget.
  unfold try_finally, bind at 1 in Hget. rewrite _print_spec in Hget.
  set (evs1 := if verbose _ then _ else _) in Hget.
  assert (Hc1 : count is_post evs1 = 0%nat) by (unfold evs1; by destruct (verbose _)).
  rewrite extend_extend in Hget.
  destruct (get_block_spec fuel d tok (set_zip_token v self) (extend w (evs0 ++ evs1)) Hd)
    as (rb & evs2 & Hb & Hc2).
  rewrite Hb, set_zip_token_twice, extend_extend in Hget.
  edestruct (teardown_spec (PyDict d) (set_zip_token tok self)) as (c & evs3 & Ht & Hc & Hp & Hrel);
    [done|].
  assert (Hfin : exists evs,
    (set_zip_token tok self, extend (extend w ((evs0 ++ evs1) ++ evs2)) evs3).2 = extend w evs
    /\ count is_post evs = 1%nat
    /\ count (is_request (release_request tok)) evs = 1%nat).
  { rewrite extend_extend. eexists. split; [reflexivity|].
    pose proof (Hle ((evs0 ++ evs1) ++ evs2)).
    rewrite !count_app in *. simpl in Hrel. lia. }
  destruct rb as [a|e|]; [| |by simplify_eq].
  all: rewrite Ht in Hget; destruct c as [[]|e'|]; by simplify_eq.
Qed.

(** X24: a rejected export, on an object that holds no token and with a
    resource that carries none: the [KeyError] of the block is replaced by
    the [ValueError] of the attribute check of [cancel_zip]; no request is
    sent after the initiation. *)
Lemma get_rejected_without_token fuel self w d self1 w1 :
  initiate_zip (self, w) = (Ret (PyDict d), (self1, w1)) ->
  dict_get "zip_token" d = None ->
  zip_token self1 = PyNone ->
  exists evs,
    get fuel (self, w)
      = (Raise (ValueError
                  "Calling this method requires the attribute 'zip_token' to be set"),
         (self1, extend w1 evs))
    /\ count is_post evs = 0%nat /\ count is_get evs = 0%nat.
Proof.
  intros Hinit Hd Hz.
  unfold get, get_zip_token, bind at 1. rewrite Hinit.
  unfold try_finally, bind at 1. rewrite _print_spec.
  set (evs1 := if verbose _ then _ else _).
  assert (Hb : get_block fuel (PyDict d) (self1, extend w1 evs1)
               = (Raise (KeyError "zip_token"), (self1, extend w1 evs1))).
  { unfold get_block, bind at 1, getitem. by rewrite Hd. }
  rewrite Hb.
  assert (Ht : teardown (PyDict d) (self1, extend w1 evs1)
     = (Raise (ValueError
                 "Calling this method requires the attribute 'zip_token' to be set"),
        (self1, extend w1 (evs1 ++
           [EvPrint ("Tearing down context for zip token " +:+ py_str (PyDict d))])))).
  { unfold teardown, bind at 1, print, do_emit. simpl. rewrite emit_extend, extend_extend.
    unfold bind at 1, cancel_zip. cbn [attr_check]. unfold bind at 1, get_self at 1. simpl.
    by rewrite Hz. }
  rewrite Ht. eexists. split; [reflexivity|].
  rewrite !count_app. unfold evs1. by destruct (verbose self1).
Qed.

Lemma teardown_ends resource s : (teardown resource s).1 <> Diverge.
Proof.
  destruct s as [self w]. change (wp (teardown resource) (fun r _ => r <> Diverge) (self, w)).
  unfold teardown. apply wp_bind, wp_do_emit, wp_bind.
  unfold cancel_zip. apply wp_attr_check; [done|].
  apply wp_bind, wp_get_self, wp_bind, wp_request.
  destruct (http _ _) as [resp|e]; [|done].
  apply wp_ret, wp__print. done.
Qed.

Lemma try_finally_diverge {A} (body : Meth A) (cleanup : Meth unit) s :
  (forall s', (cleanup s').1 <> Diverge) ->
  (try_finally body cleanup s).1 = Diverge -> (body s).1 = Diverge.
Proof.
  intros Hc. unfold try_finally. destruct (body s) as [[a|e|] s']; [| |done].
  all: specialize (Hc s'); by destruct (cleanup s') as [[[]|e'|] s''].
Qed.

(** X25: [get] can run out of fuel in its polling only: whenever the
    polling ends, the export ends (the initiation, the fetch of the archive
    and the teardown always do). *)
Lemma zip_get_diverges_in_poll fuel s :
  (get fuel s).1 = Diverge -> exists s2, (poll fuel s2).1 = Diverge.
Proof.
  destruct s as [self w].
  change (wp (get fuel) (fun r _ => r = Diverge -> exists s2, (poll fuel s2).1 = Diverge)
            (self, w)).
  unfold get, get_zip_token. apply wp_bind.
  eapply wp_mono; [apply initiate_zip_spec|].
  intros [resource|e|] s1 (Hr & v & evs & -> & _); [|done..]. clear Hr.
  unfold wp. intros Hd%try_finally_diverge; [|apply teardown_ends].
  revert Hd.
  change (wp (_print ("Created context for zip token " +:+ py_str resource) ;;;
              get_block fuel resource)
            (fun r _ => r = Diverge -> exists s2, (poll fuel s2).1 = Diverge)
            (set_zip_token v self, extend w evs)).
  apply wp_bind, wp__print. intros evs1 _. rewrite extend_extend.
  generalize (set_zip_token v self) (extend w (evs ++ evs1)). clear. intros self w.
  unfold get_block.
  apply wp_bind, wp_pure; [apply pure_getitem|].
  intros [tok|e|] ?; [|done..].
  apply wp_bind, wp_put_zip_token.
  apply wp_bind, wp_pure; [apply pure_getitem|].
  intros [status|e|] ?; [|done..].
  destruct (py_eq status (PyInt 400)).
  - apply wp_bind, wp_get_self, wp_bind, wp_pure; [apply pure_getitem|].
    intros [error_msg|e|] ?; done.
  - apply wp_bind. unfold wp at 1.
    destruct (poll fuel (set_zip_token tok self, w)) as [[[]|e|] [self' w']] eqn:Hp;
      simpl; [|done|].
    2:{ intros _. eexists. by rewrite Hp. }
    apply wp_bind, wp__print. intros evs2 _.
    apply wp_bind. eapply wp_mono; [apply get_zip_quiet|].
    intros [content|e|] s' (Hr & _); done.
Qed.

End Zip.

(** The export of [/sub] on a server that issues the token [abc]: two
    polls, the archive, one release. *)
Lemma zip_get_releases_once_witness :
  let env := Demo.env Examples.exporting in
  let w := Demo.empty_world Examples.exporting in
  exists evs,
    (@ZipDownload.get env 5 (Examples.zip_dl, w)).2.2 = @extend env w evs
    /\ count is_post evs = 1%nat
    /\ count (@is_request (@ZipDownload.release_request env (PyStr "abc"))) evs = 1%nat.
Proof.
  intros env w.
  eapply (@zip_get_releases_once env 5 Examples.zip_dl w
            [("zip_token", PyStr "abc"); ("requests_status", PyInt 200)]
            _ _ (PyStr "abc") (Ret (CBytes "PK..."))).
  - vm_compute. reflexivity.
  - reflexivity.
  - discriminate.
  - vm_compute. reflexivity.
  - discriminate.
Defined.

(** ** The crawl [Scraper] *)

Lemma bind_ret_inv {S A B} (m : M S A) (k : A -> M S B) s b s' :
  bind m k s = (Ret b, s') -> exists a s1, m s = (Ret a, s1) /\ k a s1 = (Ret b, s').
Proof. unfold bind. destruct (m s) as [[a|e|] s1]; [eauto|done..]. Qed.

Section Sched.
Context `{Env}.
Import BaseDownload Scraper.

Lemma gather_runs_all {A} (ms : list (Meth A)) s rs s' :
  gather ms s = (Ret rs, s') <-> runs_all ms s rs s'.
Proof.
  split.
  - revert s rs. induction ms as [|m ms IH]; intros s rs Hg.
    + injection Hg as <- <-. constructor.
    + cbn [gather] in Hg. destruct (m s) as [[a|e|] s1] eqn:Hm; [| |done].
      * apply bind_ret_inv in Hg as (rest & s2 & Hrest & [= <- <-]).
        eapply runs_ret; eauto.
      * apply bind_ret_inv in Hg as (rest & s2 & Hrest & [= <- <-]).
        eapply runs_raise; eauto.
  - induction 1 as [s|m ms s a s1 rs s2 Hm _ IH|m ms s e s1 rs s2 Hm _ IH]; [done|..].
    all: cbn [gather]; rewrite Hm; unfold bind; by rewrite IH.
Qed.

Lemma sum_lists_inv new_targets acc s l s' :
  sum_lists new_targets acc s = (Ret l, s') ->
  s' = s /\ exists listings, new_targets = map inl listings /\ l = acc ++ concat listings.
Proof.
  revert acc. induction new_targets as [|[x|e] rest IH]; intros acc Hs; [| |done].
  - injection Hs as <- <-. split; [done|]. exists []. by rewrite app_nil_r.
  - apply IH in Hs as (-> & listings & -> & ->). split; [done|].
    exists (x :: listings). simpl. by rewrite app_assoc.
Qed.

Lemma call_spec {A} (o : Obj) (m : Meth A) self w :
  call o m (self, w) = ((m (o, w)).1, (self, (m (o, w)).2.2)).
Proof. unfold call. simpl. by destruct (m (o, w)) as [r [o' w']]. Qed.

(** A fetch that hands back a response has sent its GET. *)
Lemma _get_some_sent uri okay_fail self w :
  wp (_get uri okay_fail)
     (fun r s' => exists evs, s' = (self, extend w evs)
        /\ (forall resp, r = Ret (Some resp) ->
              EvRequest (GET uri (timeout self)) ∈ evs)) (self, w).
Proof.
  unfold _get. apply wp_bind, wp_get_self; simpl.
  destruct (Z.to_nat (tries self + 1)) as [|fuel].
  - cbn -[Z.ltb]. apply wp_bind, wp_get_self; simpl.
    destruct (-1 <? tries self)%Z; [apply wp_diverge|apply wp_ret];
      exists []; rewrite extend_nil; by split.
  - cbn [_get_loop]. apply wp_bind, wp_get_self; simpl.
    destruct (-1 <? tries self)%Z.
    2:{ apply wp_ret. exists []. rewrite extend_nil. by split. }
    apply wp_bind, wp_ret, wp_bind, wp_request.
    assert (Hafter : forall resp evs0,
      EvRequest (GET uri (timeout self)) ∈ evs0 ->
      wp (match resp with
          | None => raise (UnboundLocalError "response")
          | Some r =>
              if negb (ok r) then
                _print ("Non-OK status (" +:+ pretty (status_code r) +:+ ") at " +:+ uri) ;;;
                if bool_decide (status_code r ∈ okay_fail) then ret (Some r)
                else _get_loop fuel uri okay_fail (-1 + 1)%Z (Some r)
              else ret (Some r)
          end)
        (fun r s' => exists evs, s' = (self, extend w evs)
           /\ (forall resp, r = Ret (Some resp) ->
                 EvRequest (GET uri (timeout self)) ∈ evs)) (self, extend w evs0)).
    { intros resp evs0 Hin. destruct resp as [r|]; [|apply wp_raise; by exists evs0].
      destruct (negb (ok r)); [|apply wp_ret; by exists evs0].
      apply wp_bind, wp__print. intros evs1 _. rewrite extend_extend.
      case_bool_decide.
      - apply wp_ret. eexists. split; [done|]. intros _ _. set_solver.
      - eapply wp_mono; [apply _get_loop_spec|].
        intros r' s' (evs2 & -> & _). rewrite extend_extend. eexists. split; [done|].
        intros _ _. set_solver. }
    destruct (http _ _) as [r|[]].
    + apply (Hafter (Some r)). set_solver.
    + apply wp_bind, wp__print. intros evs1 _. rewrite extend_extend.
      apply (Hafter None). set_solver.
    + apply wp_bind, wp__print. intros evs1 _. rewrite extend_extend.
      apply (Hafter None). set_solver.
    + apply wp_bind, wp__print. intros evs1 _. rewrite extend_extend.
      apply wp_ret. by eexists.
    + apply wp_raise. by eexists.
Qed.

Lemma pure_entries_of type anchors : pure (entries_of type anchors).
Proof.
  induction anchors as [|i rest IH]; intros s; [done|].
  cbn [entries_of]. destruct (href i) as [h|]; [|done].
  destruct (query_p h) as [p|]; [|done].
  unfold bind. destruct (IH s) as [Hs Hd].
  destruct (entries_of type rest s) as [[tl|e|] s1]; simpl in *; by subst.
Qed.

(** A listing that returns has sent the GET of the folder, and kept the
    object that asked. *)
Lemma listing_sent self i caller w :
  wp (call (folder_of self i) FolderDownload.get)
     (fun r s' => exists evs, s' = (caller, extend w evs)
        /\ (forall l, r = Ret l ->
              EvRequest (listing_request self (Entry.path i)) ∈ evs)) (caller, w).
Proof.
  set (o := folder_of self i).
  assert (Hwp : wp FolderDownload.get
     (fun r s' => exists evs, s' = (o, extend w evs)
        /\ (forall l, r = Ret l ->
              EvRequest (listing_request self (Entry.path i)) ∈ evs)) (o, w)).
  { unfold FolderDownload.get. apply wp_bind.
    unfold FolderDownload.make_target_uri. cbn [attr_check].
    apply wp_bind, wp_get_self; simpl.
    apply wp_bind, wp_get_self; simpl.
    case_bool_decide; [apply wp_raise; exists []; by rewrite extend_nil|].
    apply wp_bind, wp_get_self, wp_ret; simpl.
    apply wp_bind. eapply wp_mono; [apply _get_some_sent|].
    intros r s' (evs & -> & Hsent). destruct r as [resp|e|]; try by exists evs.
    apply wp_bind, wp_get_self; simpl. apply wp_bind, wp__print.
    intros evs1 _. rewrite extend_extend.
    destruct resp as [resp|]; [|apply wp_bind, wp_raise; by eexists].
    specialize (Hsent resp eq_refl).
    assert (Hin : EvRequest (listing_request self (Entry.path i)) ∈ evs ++ evs1)
      by (unfold listing_request; set_solver).
    apply wp_bind, wp_pure; [apply pure_content_of|].
    intros [c|e|] ?; [|by eexists|done].
    apply wp_bind, wp_pure; [apply pure_entries_of|].
    intros [files|e|] ?; [|by eexists|done].
    apply wp_bind, wp_pure; [apply pure_content_of|].
    intros [c'|e|] ?; [|by eexists|done].
    apply wp_bind, wp_pure; [apply pure_entries_of|].
    intros [folders|e|] ?; [|by eexists|done].
    apply wp_ret. by eexists. }
  unfold wp in *. rewrite call_spec. simpl.
  destruct (FolderDownload.get (o, w)) as [r [o' w']]; simpl in *.
  destruct Hwp as (evs & [= -> ->] & Hsent). by exists evs.
Qed.

(** The listings of a round that all return have sent the GET of every
    folder they list. *)
Lemma listings_sent self folders caller w listings s' :
  runs_all (map (fun i => call (folder_of self i) FolderDownload.get) folders)
    (caller, w) (map inl listings) s' ->
  exists evs, s' = (caller, extend w evs)
    /\ Forall (fun i => EvRequest (listing_request self (Entry.path i)) ∈ evs) folders.
Proof.
  revert w listings. induction folders as [|i folders IH]; intros w listings Hruns.
  - inversion Hruns; subst. exists []. by rewrite extend_nil.
  - destruct listings as [|l listings]; inversion Hruns as [|? ? ? ? s1 ? ? Hm Hrest|]; subst.
    pose proof (listing_sent self i caller w) as Hwp.
    apply wp_eq with (r := Ret l) (s' := s1) in Hwp; [|done].
    destruct Hwp as (evs & -> & Hsent).
    apply IH in Hrest as (evs' & -> & Hall). rewrite extend_extend.
    eexists. split; [done|]. constructor.
    + specialize (Hsent l eq_refl). set_solver.
    + eapply Forall_impl; [done|]. set_solver.
Qed.

(** X28: the entries that a round lists are those entries of the batch
    whose run, at the same index, is an exception and whose type is
    ['folder']. *)
Lemma failed_folders_spec current runs i :
  i ∈ failed_folders current runs <->
  Entry.type i = "folder"
  /\ exists k e, current !! k = Some i /\ runs !! k = Some (inr e).
Proof.
  unfold failed_folders. rewrite list_elem_of_filter.
  apply and_iff_compat_l.
  revert runs. induction current as [|c current IH]; intros runs.
  - simpl. split; [by intros ?%elem_of_nil|]. by intros (k & e & ? & _).
  - destruct runs as [|[a|e] runs]; simpl.
    + split; [by intros ?%elem_of_nil|]. by intros (k & e & _ & ?).
    + rewrite IH. split.
      * intros (k & e & ? & ?). by exists (S k), e.
      * intros ([|k] & e & ? & ?); [done|]. by exists k, e.
    + rewrite elem_of_cons, IH. split.
      * intros [-> | (k & e' & ? & ?)]; [by exists 0%nat, e|by exists (S k), e'].
      * intros ([|k] & e' & ? & ?); [left; by simplify_eq/=|right; by exists k, e'].
Qed.

(** C7, amended: a round of the crawl that goes through lists exactly the
    entries of its batch whose retrieval failed and whose type is
    ['folder'] (a failed entry of another type is dropped): the GET of
    each such folder is sent, and the children that these listings return
    are appended to what was left of the frontier. *)
Theorem step_descends_failed_folders fuel self w targets targets' s' :
  step fuel targets (self, w) = (Ret targets', s') ->
  exists runs s1 s2 listings evs,
    runs_all (map (run_download fuel) (map (dl_of self) (batch self targets)))
      (self, w) runs s1
    /\ report runs (map is_exception runs) (batch self targets) s1 = (Ret tt, s2)
    /\ runs_all
         (map (fun i => call (folder_of self i) FolderDownload.get)
              (failed_folders (batch self targets) runs))
         s2 (map inl listings) s'
    /\ s'.2 = extend s2.2 evs
    /\ Forall (fun i => EvRequest (listing_request self (Entry.path i)) ∈ evs)
         (failed_folders (batch self targets) runs)
    /\ targets' = remaining self targets ++ concat listings.
Proof.
  intros Hstep. unfold step in Hstep.
  apply bind_ret_inv in Hstep as (self0 & s0 & [= <- <-] & Hstep).
  unfold batch, remaining.
  destruct (pick _ [] targets) as [current rest]; simpl.
  apply bind_ret_inv in Hstep as (runs & s1 & Hruns%gather_runs_all & Hstep).
  apply bind_ret_inv in Hstep as ([] & [self2 w2] & Hrep & Hstep).
  apply bind_ret_inv in Hstep as (news & s3 & Hnews%gather_runs_all & Hstep).
  apply bind_ret_inv in Hstep as (added & s4 & Hsum & [= <- <-]).
  apply sum_lists_inv in Hsum as (-> & listings & -> & ->).
  fold (failed_folders current runs) in Hnews.
  destruct (listings_sent _ _ _ _ _ _ Hnews) as (evs & -> & Hall).
  exists runs, s1, (self2, w2), listings, evs. done.
Qed.

(** The batch of a round is the end of the frontier, last entry first,
    cut at [chunking] entries. *)
Lemma pick_spec n current targets :
  pick n current targets
    = (current ++ reverse (drop (length targets - n) targets),
       take (length targets - n) targets).
Proof.
  revert current targets. induction n as [|n IH]; intros current targets.
  - simpl. rewrite Nat.sub_0_r, drop_all, take_ge by lia. by rewrite app_nil_r.
  - cbn [pick]. unfold pop. destruct targets as [|x targets _] using rev_ind.
    + simpl. by rewrite app_nil_r.
    + rewrite last_snoc, removelast_last, IH.
      rewrite length_app. simpl.
      replace (length targets + 1 - S n)%nat with (length targets - n)%nat by lia.
      rewrite drop_app_le by lia. rewrite take_app_le by lia.
      rewrite reverse_app. simpl. by rewrite <- app_assoc.
Qed.

(** X27: the batch of a round has at most [chunking] entries, and with
    what is left it makes up the frontier: the batch is the end of the
    frontier, last entry first. *)
Lemma batch_bound self targets :
  (length (batch self targets) <= Z.to_nat (chunking self))%nat
  /\ targets = remaining self targets ++ reverse (batch self targets).
Proof.
  unfold batch, remaining. rewrite pick_spec. simpl.
  rewrite length_reverse, length_drop, reverse_involutive, take_drop. split; [lia|done].
Qed.

(** An exception among the results of the listings makes [sum] raise. *)
Lemma sum_lists_exception new_targets acc s e :
  inr e ∈ new_targets ->
  sum_lists new_targets acc s = (Raise (TypeError "can only concatenate list to list"), s).
Proof.
  revert acc. induction new_targets as [|[l|e'] rest IH]; intros acc Hin.
  - by apply elem_of_nil in Hin.
  - apply elem_of_cons in Hin as [?|Hin]; [done|]. by apply IH.
  - done.
Qed.

(** X26: a round in which one of the listings ends in an exception
    raises the [TypeError] of [sum], whatever the other listings and the
    retrievals of the batch did. *)
Lemma step_raises_on_failed_listing fuel self w targets runs s1 s2 news s3 e :
  runs_all (map (run_download fuel) (map (dl_of self) (batch self targets)))
    (self, w) runs s1 ->
  report runs (map is_exception runs) (batch self targets) s1 = (Ret tt, s2) ->
  runs_all
    (map (fun i => call (folder_of self i) FolderDownload.get)
         (failed_folders (batch self targets) runs))
    s2 news s3 ->
  inr e ∈ news ->
  step fuel targets (self, w)
    = (Raise (TypeError "can only concatenate list to list"), s3).
Proof.
  intros Hruns%gather_runs_all Hrep Hnews%gather_runs_all Hin.
  unfold step, bind at 1, get_self at 1. simpl.
  unfold batch, failed_folders in *.
  destruct (pick _ [] targets) as [current rest]; simpl in *.
  unfold bind at 1. rewrite Hruns. unfold bind at 1. rewrite Hrep.
  unfold bind at 1. rewrite Hnews. unfold bind at 1.
  by rewrite (sum_lists_exception _ _ _ e).
Qed.

End Sched.

(** The round on the root, whose export the server rejects and whose
    listing has two children: both are in the frontier afterwards. *)
Lemma step_descends_failed_folders_witness :
  let env := Demo.env Examples.listing in
  let w := Demo.empty_world Examples.listing in
  let s' := (@Scraper.step env 3 [Scraper.root] (Examples.scraper, w)).2 in
  exists runs s1 s2 listings evs,
    @runs_all env _
      (map (@Scraper.run_download env 3)
         (map (Scraper.dl_of Examples.scraper) (batch Examples.scraper [Scraper.root])))
      (Examples.scraper, w) runs s1
    /\ @Scraper.report env runs (map Scraper.is_exception runs)
         (batch Examples.scraper [Scraper.root]) s1 = (Ret tt, s2)
    /\ @runs_all env _
         (map (fun i => @call env _ (Scraper.folder_of Examples.scraper i)
                          (@FolderDownload.get env))
              (failed_folders (batch Examples.scraper [Scraper.root]) runs))
         s2 (map inl listings) s'
    /\ s'.2 = @extend env s2.2 evs
    /\ Forall (fun i =>
           EvRequest (listing_request Examples.scraper (Entry.path i)) ∈ evs)
         (failed_folders (batch Examples.scraper [Scraper.root]) runs)
    /\ [Examples.a_txt; Examples.sub]
       = remaining Examples.scraper [Scraper.root] ++ concat listings.
Proof.
  intros env w s'.
  apply (@step_descends_failed_folders env 3 Examples.scraper w [Scraper.root]
           [Examples.a_txt; Examples.sub] s').
  vm_compute. reflexivity.
Defined.

(** C7 as worded fails: the batch is the file [/a.txt], its download
    fails, the server would list two children for that path, and yet the
    round sends no listing request and leaves the frontier empty. *)
Lemma step_file_counterexample :
  let env := Demo.env Examples.listing in
  let w := Demo.empty_world Examples.listing in
  let sent := [EvRequest (GET (FILE_TARGET "tok" "/a.txt") 60)] in
  @Scraper.run_download env 3 (Scraper.dl_of Examples.scraper Examples.a_txt)
      (Examples.scraper, w)
    = (Raise (UnboundLocalError "response"), (Examples.scraper, @extend env w sent))
  /\ (@call env _ (Scraper.folder_of Examples.scraper Examples.a_txt)
        (@FolderDownload.get env) (Examples.scraper, @extend env w sent)).1
    = Ret [Examples.a_txt; Examples.sub]
  /\ @Scraper.step env 3 [Examples.a_txt] (Examples.scraper, w)
    = (Ret [], (Examples.scraper, @extend env w sent))
  /\ EvRequest (listing_request Examples.scraper "/a.txt") ∉ sent.
Proof.
  intros env w sent. split; [vm_compute; reflexivity|].
  split; [vm_compute; reflexivity|].
  split; [vm_compute; reflexivity|].
  unfold sent. rewrite list_elem_of_singleton. discriminate.
Qed.

(** C6: on a server that rejects the export of the root and refuses the
    connection of its listing, the crawl does not go on: the exception
    among the listing results makes [sum] raise a [TypeError], which
    leaves [Scraper.get]; nothing is logged for the path. *)
Theorem scraper_aborts_on_failed_listing :
  let env := Demo.env Examples.unlistable in
  let w := Demo.empty_world Examples.unlistable in
  @Scraper.get env 3 (Examples.scraper, w)
    = (Raise (TypeError "can only concatenate list to list"),
       (Examples.scraper,
        @extend env w
          [EvRequest (GET (ZIP_TARGET "tok" "/") 60);
           EvPrint "Tearing down context for zip token {...}";
           EvRequest (GET (FOLDER_TARGET "tok" "/") 60)])).
Proof. vm_compute. reflexivity. Qed.

(** C2: on a server that rejects the export with status 400 and the
    body [{error_msg: ...}], [get] sends no release, but what it raises is
    the [ValueError] of the attribute check of [cancel_zip]: the
    [KeyError] of the missing ['zip_token'] ends the block before the
    message of the server is read, and the teardown replaces it. *)
Theorem zip_get_rejected_hides_message :
  let env := Demo.env Examples.rejecting in
  let w := Demo.empty_world Examples.rejecting in
  @ZipDownload.get env 5 (Examples.zip_dl, w)
    = (Raise (ValueError
                "Calling this method requires the attribute 'zip_token' to be set"),
       (Examples.zip_dl,
        @extend env w
          [EvRequest (GET (ZIP_TARGET "tok" "/sub") 60);
           EvPrint "Tearing down context for zip token {...}"]))
  /\ (@ZipDownload.get_block env 5
        (PyDict [("error_msg", PyStr "too large"); ("requests_status", PyInt 400)])
        (Examples.zip_dl, w)).1
    = Raise (KeyError "zip_token").
Proof. split; vm_compute; reflexivity. Qed.

(** * Further properties of the code *)

(** ** The fetcher, round by round *)

Section FetcherMore.
Context `{Env}.
Import BaseDownload.

Lemma _get_loop_events fuel uri okay_fail k response self w :
  (-1 <= k)%Z ->
  wp (_get_loop fuel uri okay_fail k response)
     (fetch_post self w uri okay_fail k) (self, w).
Proof.
  revert k response w.
  induction fuel as [|fuel IH]; intros k response w Hk.
  - cbn -[Z.ltb]. apply wp_bind, wp_get_self; simpl.
    assert (Hnil : forall r : Res (option Response),
               (forall resp, r = Ret (Some resp) -> ok resp = true \/ status_code resp ∈ okay_fail) ->
               fetch_post self w uri okay_fail k r (self, w)).
    { intros r Hr. exists []. rewrite extend_nil. split; [done|].
      split; [by apply Forall_nil|]. split; [|done].
      unfold waits_for. by destruct (k <? 0)%Z. }
    destruct (k <? tries self)%Z; [apply wp_diverge|apply wp_ret]; by apply Hnil.
  - cbn [_get_loop]. apply wp_bind, wp_get_self; simpl.
    destruct (Z.ltb_spec k (tries self)) as [Hlt|Hge].
    2:{ apply wp_ret. exists []. rewrite extend_nil. split; [done|].
        split; [by apply Forall_nil|]. split; [|done].
        unfold waits_for. by destruct (k <? 0)%Z. }
    (* the events of the round before the response is looked at *)
    set (pre := (if (0 <? k + 1)%Z then [EvSleep SLEEP_TIME] else [])
                  ++ [EvRequest (GET uri (timeout self))]).
    assert (Hpre_ev : Forall (fetch_event self uri) pre).
    { unfold pre. apply Forall_app. split.
      - destruct (0 <? k + 1)%Z; [|by apply Forall_nil].
        apply Forall_cons; split; [|by apply Forall_nil]. right. by left.
      - apply Forall_cons; split; [|by apply Forall_nil]. by left. }
    assert (Hpre_g : count is_get pre = 1%nat).
    { unfold pre. rewrite count_app. by destruct (0 <? k + 1)%Z. }
    assert (Hpre_s : count is_sleep pre = waits_for k 1).
    { unfold pre, waits_for. rewrite count_app.
      destruct (Z.ltb_spec 0 (k + 1)), (Z.ltb_spec k 0); try lia; done. }
    assert (Hprint : forall evs, evs = [] \/ (exists line, evs = [EvPrint line]) ->
              Forall (fetch_event self uri) evs /\ count is_get evs = 0%nat
              /\ count is_sleep evs = 0%nat).
    { intros evs [-> | [line ->]]; (split; [|done]); [by apply Forall_nil|].
      apply Forall_cons; split; [|by apply Forall_nil]. right. by right. }
    assert (Hdone : forall (r : Res (option Response)) evs,
      Forall (fetch_event self uri) evs -> count is_get evs = 0%nat ->
      count is_sleep evs = 0%nat ->
      (forall resp, r = Ret (Some resp) -> ok resp = true \/ status_code resp ∈ okay_fail) ->
      fetch_post self w uri okay_fail k r (self, extend w (pre ++ evs))).
    { intros r evs Hev Hg Hs Hr. exists (pre ++ evs). split; [done|].
      split; [rewrite Forall_app; by split|]. split; [|exact Hr].
      rewrite !count_app, Hpre_g, Hpre_s, Hg, Hs. unfold waits_for.
      destruct (k <? 0)%Z; simpl; lia. }
    assert (Hafter : forall resp evs,
      Forall (fetch_event self uri) evs -> count is_get evs = 0%nat ->
      count is_sleep evs = 0%nat ->
      wp (match resp with
          | None => raise (UnboundLocalError "response")
          | Some r =>
              if negb (ok r) then
                _print ("Non-OK status (" +:+ pretty (status_code r) +:+ ") at " +:+ uri) ;;;
                if bool_decide (status_code r ∈ okay_fail) then ret (Some r)
                else _get_loop fuel uri okay_fail (k + 1)%Z (Some r)
              else ret (Some r)
          end)
        (fetch_post self w uri okay_fail k) (self, extend w (pre ++ evs))).
    { intros resp evs Hev Hg Hs. destruct resp as [r|].
      2:{ apply wp_raise. by apply Hdone. }
      destruct (ok r) eqn:Hok; cbn [negb].
      { apply wp_ret. apply Hdone; try done. intros ? [= <-]. by left. }
      apply wp_bind, wp__print. intros evs1 Hevs1. rewrite extend_extend.
      destruct (Hprint _ Hevs1) as (Hev1 & Hg1 & Hs1).
      case_bool_decide.
      - apply wp_ret. rewrite <- app_assoc. apply Hdone.
        + rewrite Forall_app. by split.
        + rewrite count_app. lia.
        + rewrite count_app. lia.
        + intros ? [= <-]. by right.
      - eapply wp_mono; [apply IH; lia|].
        intros r' s' (evs2 & -> & Hev2 & Hs2 & Hr'). rewrite extend_extend.
        exists (((pre ++ evs) ++ evs1) ++ evs2). split; [reflexivity|].
        split; [rewrite !Forall_app; by repeat split|]. split; [|exact Hr'].
        rewrite !count_app, Hpre_g, Hpre_s, Hg, Hs, Hg1, Hs1, Hs2. unfold waits_for.
        destruct (Z.ltb_spec (k + 1) 0), (Z.ltb_spec k 0); simpl; lia. }
    apply wp_bind.
    assert (Hs0 : wp (if (0 <? k + 1)%Z then sleep SLEEP_TIME else ret tt)
              (fun r s' => r = Ret tt /\ s' = (self,
                 extend w (if (0 <? k + 1)%Z then [EvSleep SLEEP_TIME] else []))) (self, w)).
    { destruct (0 <? k + 1)%Z; [by apply wp_do_emit|]. apply wp_ret. by rewrite extend_nil. }
    eapply wp_mono; [apply Hs0|]. intros r0 s0 [-> ->].
    apply wp_bind, wp_request. rewrite extend_extend. fold pre.
    assert (Hnil : pre = pre ++ []) by (by rewrite app_nil_r).
    destruct (http _ _) as [r|[]].
    + rewrite Hnil. by apply (Hafter (Some r)).
    + apply wp_bind, wp__print. intros evs1 Hevs1. rewrite extend_extend.
      destruct (Hprint _ Hevs1) as (? & ? & ?). by apply (Hafter response).
    + apply wp_bind, wp__print. intros evs1 Hevs1. rewrite extend_extend.
      destruct (Hprint _ Hevs1) as (? & ? & ?). by apply (Hafter response).
    + apply wp_bind, wp__print. intros evs1 Hevs1. rewrite extend_extend.
      destruct (Hprint _ Hevs1) as (? & ? & ?). apply wp_ret. by apply Hdone.
    + apply wp_raise. rewrite Hnil. by apply Hdone.
Qed.


(** Every run of [_get]: it ends, and what it adds to the world is what
    a fetch of [uri] may add. *)
Lemma _get_events uri okay_fail self w :
  wp (_get uri okay_fail)
     (fun r s' => r <> Diverge /\ fetch_post self w uri okay_fail (-1) r s') (self, w).
Proof.
  pose proof (_get_spec uri okay_fail self w) as H1.
  assert (H2 : wp (_get uri okay_fail) (fetch_post self w uri okay_fail (-1)) (self, w)).
  { unfold _get. apply wp_bind, wp_get_self. apply _get_loop_events. lia. }
  unfold wp in *. destruct H1 as (evs & _ & _ & _ & Hd). by split.
Qed.

(** X1: [_get] always ends; it changes neither its object nor the file
    system; all it adds to the world are GETs of the [uri] it was given
    (with the timeout of the object), waits of [SLEEP_TIME] seconds and
    lines of log; and it waits exactly once between two attempts: one
    wait less than GETs. *)
Theorem get_only_fetches uri okay_fail self w :
  (_get uri okay_fail (self, w)).1 <> Diverge
  /\ exists evs,
       (_get uri okay_fail (self, w)).2 = (self, extend w evs)
       /\ Forall (fetch_event self uri) evs
       /\ count is_sleep evs = pred (count is_get evs).
Proof.
  pose proof (_get_events uri okay_fail self w) as Hwp.
  unfold wp in Hwp. destruct Hwp as (Hd & evs & Hs & Hev & Hw & _).
  split; [done|]. by exists evs.
Qed.

(** X2: a response that [_get] hands back is a success, or has a status
    that the caller listed in [okay_fail]: no other response leaves the
    fetcher. *)
Theorem get_returns_acceptable uri okay_fail self w :
  match (_get uri okay_fail (self, w)).1 with
  | Ret (Some r) => ok r = true \/ status_code r ∈ okay_fail
  | _ => True
  end.
Proof.
  pose proof (_get_events uri okay_fail self w) as Hwp.
  unfold wp in Hwp. destruct Hwp as (_ & evs & _ & _ & _ & Hr).
  destruct (_get uri okay_fail (self, w)).1 as [[r|]| |]; try done. by apply Hr.
Qed.

(** What the first round of [_get] does with the answer to its GET. *)
Lemma _get_first_round uri okay_fail self w :
  (0 <= tries self)%Z ->
  exists fuel,
    _get uri okay_fail (self, w)
    = (let after_try (response : option Response) : Meth (option Response) :=
          match response with
          | None => raise (UnboundLocalError "response")
          | Some r =>
              if negb (ok r) then
                _print ("Non-OK status (" +:+ pretty (status_code r) +:+ ") at " +:+ uri) ;;;
                if bool_decide (status_code r ∈ okay_fail) then ret (Some r)
                else _get_loop fuel uri okay_fail 0%Z (Some r)
              else ret (Some r)
          end in
        match http (trace w) (GET uri (timeout self)) with
        | Responds r => after_try (Some r)
        | Fails Timeout => _print ("Timeout at " +:+ uri) ;;; after_try None
        | Fails ConnectionError =>
            _print ("Connection error at " +:+ uri) ;;; after_try None
        | Fails MissingSchema =>
            _print ("URI '" +:+ uri +:+ "' is malformed.") ;;; ret None
        | Fails OtherRequestException => raise (RequestsError OtherRequestException)
        end) (self, extend w [EvRequest (GET uri (timeout self))]).
Proof.
  intros Hn. unfold _get, bind at 1, get_self at 1. simpl.
  destruct (Z.to_nat (tries self + 1)) as [|fuel] eqn:Hf; [lia|]. exists fuel.
  cbn [_get_loop]. unfold bind at 1, get_self at 1. cbn [fst snd].
  destruct (Z.ltb_spec (-1) (tries self)); [|lia].
  change (-1 + 1)%Z with 0%Z. change (0 <? 0)%Z with false.
  unfold bind at 1. unfold ret at 1. unfold bind at 1, request at 1. reflexivity.
Qed.

(** X3: when the first attempt is answered with a success, [_get] hands
    that response back after this one GET: no wait, no log, no second
    attempt. *)
Theorem get_first_success uri okay_fail self w r :
  (0 <= tries self)%Z ->
  http (trace w) (GET uri (timeout self)) = Responds r ->
  ok r = true ->
  _get uri okay_fail (self, w)
    = (Ret (Some r), (self, extend w [EvRequest (GET uri (timeout self))])).
Proof.
  intros Hn Hh Hok. destruct (_get_first_round uri okay_fail self w Hn) as [fuel ->].
  cbv zeta. by rewrite Hh, Hok.
Qed.

(** X4: when the first attempt is answered with a failure status that is
    in [okay_fail], [_get] hands that response back at once: one GET, no
    wait and no retry. *)
Theorem get_accepted_failure uri okay_fail self w r :
  (0 <= tries self)%Z ->
  http (trace w) (GET uri (timeout self)) = Responds r ->
  ok r = false ->
  status_code r ∈ okay_fail ->
  exists evs,
    _get uri okay_fail (self, w)
      = (Ret (Some r), (self, extend w (EvRequest (GET uri (timeout self)) :: evs)))
    /\ count is_get evs = 0%nat /\ count is_sleep evs = 0%nat.
Proof.
  intros Hn Hh Hok Hin. destruct (_get_first_round uri okay_fail self w Hn) as [fuel ->].
  cbv zeta. rewrite Hh, Hok. cbn [negb]. unfold bind at 1. rewrite _print_spec.
  rewrite bool_decide_eq_true_2 by done. rewrite extend_extend.
  eexists. split; [reflexivity|]. by destruct (verbose self).
Qed.

(** X5: a URI without a schema is not retried: after the one GET that
    raises [MissingSchema] the loop is left and [_get] returns [None]; it
    does not raise. *)
Theorem get_missing_schema uri okay_fail self w :
  (0 <= tries self)%Z ->
  http (trace w) (GET uri (timeout self)) = Fails MissingSchema ->
  exists evs,
    _get uri okay_fail (self, w)
      = (Ret None, (self, extend w (EvRequest (GET uri (timeout self)) :: evs)))
    /\ count is_get evs = 0%nat /\ count is_sleep evs = 0%nat.
Proof.
  intros Hn Hh. destruct (_get_first_round uri okay_fail self w Hn) as [fuel ->].
  cbv zeta. rewrite Hh. unfold bind at 1. rewrite _print_spec. rewrite extend_extend.
  eexists. split; [reflexivity|]. by destruct (verbose self).
Qed.

(** X6: a timeout or a refused connection at the first attempt: the
    local [response] is unbound when [response.ok] is read, and the
    [UnboundLocalError] leaves [_get] after one GET and no wait, on every
    server and for every object with [tries >= 0]. *)
Theorem get_first_failure_unbound uri okay_fail self w e :
  (0 <= tries self)%Z ->
  http (trace w) (GET uri (timeout self)) = Fails e ->
  e = Timeout \/ e = ConnectionError ->
  exists evs,
    _get uri okay_fail (self, w)
      = (Raise (UnboundLocalError "response"),
         (self, extend w (EvRequest (GET uri (timeout self)) :: evs)))
    /\ count is_get evs = 0%nat /\ count is_sleep evs = 0%nat.
Proof.
  intros Hn Hh He. destruct (_get_first_round uri okay_fail self w Hn) as [fuel ->].
  cbv zeta. rewrite Hh.
  destruct He as [-> | ->]; unfold bind at 1; rewrite _print_spec, extend_extend;
    (eexists; split; [reflexivity|]); by destruct (verbose self).
Qed.

End FetcherMore.

(** ** Attribute checks, listings and downloads *)

Section CheckMore.
Context `{Env}.
Import BaseDownload.

Lemma attr_check_pass {A} keys (m : Meth A) self w :
  Forall (fun key => attr_is_none self key = Some false) keys ->
  attr_check keys m (self, w) = m (self, w).
Proof.
  induction 1 as [|key keys Hkey _ IH]; [done|].
  cbn [attr_check]. unfold bind, get_self. cbn [fst]. by rewrite Hkey.
Qed.

Lemma attr_check_stop {A} before key after (m : Meth A) self w :
  Forall (fun k => attr_is_none self k = Some false) before ->
  attr_is_none self key = Some true ->
  attr_check (before ++ key :: after) m (self, w)
    = (Raise (ValueError (unset_message key)), (self, w)).
Proof.
  intros Hbefore Hkey. induction Hbefore as [|k before Hk _ IH].
  - cbn [app attr_check]. unfold bind, get_self. cbn [fst]. by rewrite Hkey.
  - cbn [app attr_check]. unfold bind at 1, get_self at 1. cbn [fst]. by rewrite Hk.
Qed.

(** X7: a method decorated with [attr_check] runs as it is written when
    every attribute of [keys] is set on the object. *)
Theorem attr_check_all_set {A} keys (m : Meth A) self w :
  Forall (fun key => attr_is_none self key = Some false) keys ->
  attr_check keys m (self, w) = m (self, w).
Proof.
  intros Hall. induction Hall as [|key keys Hkey _ IH]; [reflexivity|].
  cbn [attr_check]. unfold bind, get_self. cbn [fst]. rewrite Hkey. exact IH.
Qed.

(** X8: [attr_check] raises the [ValueError] that names the first
    attribute of [keys] that is [None]; the method is not run and nothing
    changes. *)
Theorem attr_check_first_unset {A} before key after (m : Meth A) self w :
  Forall (fun k => attr_is_none self k = Some false) before ->
  attr_is_none self key = Some true ->
  attr_check (before ++ key :: after) m (self, w)
    = (Raise (ValueError (unset_message key)), (self, w)).
Proof.
  intros Hbefore Hkey. induction Hbefore as [|k before Hk _ IH].
  - cbn [app attr_check]. unfold bind, get_self. cbn [fst]. rewrite Hkey. reflexivity.
  - cbn [app attr_check]. unfold bind at 1, get_self at 1. cbn [fst]. rewrite Hk. exact IH.
Qed.




(** [Download.get] keeps the object and the file system, and ends. *)
Lemma Download_get_quiet self w :
  wp Download.get (fun r s' => r <> Diverge /\ quiet self w r s') (self, w).
Proof.
  unfold Download.get. apply wp_bind. unfold Download.make_target_uri.
  apply wp_attr_check; [intros e; split; [done|apply quiet_nil]|].
  apply wp_bind, wp_get_self, wp_ret. cbn [fst].
  apply wp_bind, wp__get_quiet. intros r s' Hd (evs & -> & Hc).
  destruct r as [resp|e|]; [|by split; [|exists evs]|done].
  apply wp_bind, wp_get_self. cbn [fst]. apply wp_bind, wp__print_quiet.
  intros s' (evs1 & -> & Hc1). rewrite extend_extend.
  assert (count is_post (evs ++ evs1) = 0%nat) by (rewrite count_app; lia).
  apply wp_bind, wp_pure; [apply pure_content_of|].
  intros [c|e|] ?; [|by split; [|eexists]|done].
  apply wp_ret. by split; [|eexists].
Qed.

(** X11: when the target is missing (or [force] is set) and the fetch of
    the file raises, [download] raises the same exception, and neither
    the object nor the file system has changed: nothing is written, no
    directory is made. *)
Theorem download_propagates_failure self w b p e s1 :
  base self = Some b ->
  path self = Some p ->
  os_path_exists ((b +:+ p) +:+ EXT (cls self)) (fs w) = false \/ force self = true ->
  Download.get (self, w) = (Raise e, s1) ->
  download Download.get (self, w) = (Raise e, s1)
  /\ s1.1 = self /\ fs s1.2 = fs w.
Proof.
  intros Hb Hp Hgo Hget. split.
  - unfold download, bind at 1, get_self at 1. cbn [fst].
    rewrite Hb, Hp. unfold bind at 1. cbn [str_add ret]. unfold bind at 1. cbn [get_world snd].
    rewrite bool_decide_eq_true_2 by done.
    assert (Hc : negb (os_path_exists ((b +:+ p) +:+ EXT (cls self)) (fs w)) || force self = true).
    { destruct Hgo as [-> | ->]; [done|]. apply orb_true_r. }
    rewrite Hc. cbn [andb]. unfold bind at 1. by rewrite Hget.
  - pose proof (Download_get_quiet self w) as Hq.
    apply wp_eq with (r := Raise e) (s' := s1) in Hq; [|done].
    by destruct Hq as (_ & evs & -> & _).
Qed.

(** X12: a download that goes well.  When the target is missing (or
    [force] is set), its directory exists, and the first GET of the file is
    answered with a success, [download] sends that one GET and writes the
    body of the response to [base + path + EXT]; besides the line
    "Writing ..." it only logs. *)
Theorem download_writes_body self w b p t r f' :
  (0 <= tries self)%Z ->
  base self = Some b ->
  path self = Some p ->
  token self = Some t ->
  let target := ((b +:+ p) +:+ EXT (cls self))%string in
  os_path_exists target (fs w) = false \/ force self = true ->
  http (trace w) (GET (FILE_TARGET t p) (timeout self)) = Responds r ->
  ok r = true ->
  os_path_exists (os_path_split target).1 (fs w) = true ->
  open_wb_write target (content r) (fs w) = Some f' ->
  exists logs,
    download Download.get (self, w)
      = (Ret tt,
         (self,
          {| trace := trace w ++ EvRequest (GET (FILE_TARGET t p) (timeout self))
                        :: logs ++ [EvPrint ("Writing " +:+ target)];
             fs := f' |}))
    /\ Forall (fun e => is_print e = true) logs.
Proof.
  intros Hn Hb Hp Ht target Hgo Hh Hok Hdir Hopen.
  assert (Hget : Download.get (self, w)
     = (Ret (CBytes (content r)),
        (self, extend (extend w [EvRequest (GET (FILE_TARGET t p) (timeout self))])
                 (if verbose self
                  then [EvPrint (time_ctime (trace w ++ [EvRequest (GET (FILE_TARGET t p) (timeout self))])
                                   +:+ " " +:+ repr self +:+ " " +:+ ("Got file " +:+ p))]
                  else [])))).
  { unfold Download.get, bind at 1, Download.make_target_uri.
    rewrite attr_check_pass.
    2:{ repeat constructor; unfold attr_is_none; cbn; [rewrite Hp|rewrite Ht]; done. }
    unfold bind at 1, get_self at 1. cbn [fst ret]. rewrite Hp, Ht. cbn [str_opt].
    unfold bind at 1.
    destruct (_get_first_round (FILE_TARGET t p) [] self w Hn) as [fuel ->].
    cbv zeta. rewrite Hh, Hok. cbn [negb ret].
    unfold bind at 1, get_self at 1. cbn [fst]. unfold bind at 1. rewrite Hp. cbn [str_opt].
    by rewrite _print_spec. }
  set (logs := if verbose self then _ else _) in Hget.
  exists logs. split; [|unfold logs; destruct (verbose self); repeat constructor].
  unfold download, bind at 1, get_self at 1. cbn [fst].
  rewrite Hb, Hp. unfold bind at 1. cbn [str_add ret]. unfold bind at 1. cbn [get_world snd].
  rewrite bool_decide_eq_true_2 by done. fold target.
  assert (Hc : negb (os_path_exists target (fs w)) || force self = true).
  { destruct Hgo as [-> | ->]; [done|]. apply orb_true_r. }
  rewrite Hc. cbn [andb]. unfold bind at 1. rewrite Hget.
  unfold bind at 1, io_write, bind at 1, print, do_emit. cbn [fst snd].
  unfold bind at 1, get_world at 1. cbn [fst snd].
  unfold bind at 1. cbn [emit extend fs trace]. rewrite Hdir. cbn [negb ret].
  unfold bind at 1, get_world at 1. cbn [fst snd fs].
  change (fs (emit _ (extend (extend w _) logs))) with (fs w). rewrite Hopen.
  unfold bind at 1, put_fs. cbn [fst snd ret trace emit extend].
  unfold ret. do 3 f_equal. by rewrite <- !app_assoc.
Qed.


(** X14: without a [zip_token], the poll of the progress, the fetch of
    the archive and the release all raise the [ValueError] of the
    attribute check; no request is sent. *)
Theorem zip_methods_need_token self w :
  zip_token self = PyNone ->
  ZipDownload.check_zip_status (self, w)
    = (Raise (ValueError (unset_message "zip_token")), (self, w))
  /\ ZipDownload.get_zip (self, w)
     = (Raise (ValueError (unset_message "zip_token")), (self, w))
  /\ ZipDownload.cancel_zip (self, w)
     = (Raise (ValueError (unset_message "zip_token")), (self, w)).
Proof.
  intros Hz.
  assert (Hck : forall A (m : Meth A),
            attr_check ["zip_token"] m (self, w)
            = (Raise (ValueError (unset_message "zip_token")), (self, w))).
  { intros A m. apply (attr_check_stop [] "zip_token" []); [done|].
    unfold attr_is_none. cbn. by rewrite Hz. }
  unfold ZipDownload.check_zip_status, ZipDownload.get_zip, ZipDownload.cancel_zip.
  by rewrite !Hck.
Qed.

End CheckMore.

(** ** Listings and exports *)

Section More2.
Context `{Env}.
Import BaseDownload.










Lemma dict_get_set_ne key key' v d :
  key' <> key -> dict_get key' (dict_set key v d) = dict_get key' d.
Proof.
  intros Hne. apply String.eqb_neq in Hne.
  induction d as [|[k v'] d IH]; simpl.
  - by rewrite Hne.
  - destruct (String.eqb key k) eqn:E; simpl.
    + apply String.eqb_eq in E as <-. by rewrite Hne.
    + by rewrite IH.
Qed.


(** X17: the polling of an export never sends a POST (so never
    releases the token) and changes neither its object nor the file
    system, however long it runs. *)
Theorem poll_sends_no_post fuel self w :
  exists evs,
    (ZipDownload.poll fuel (self, w)).2 = (self, extend w evs)
    /\ count is_post evs = 0%nat.
Proof. apply (poll_quiet fuel self w). Qed.

End More2.

(** ** The crawl and [main] *)

Section SchedMore.
Context `{Env}.
Import BaseDownload Scraper.

Lemma retarget_of_none current runs :
  Forall (fun r : unit + exn => is_exception r = false) runs ->
  retarget_of current (map is_exception runs) = [].
Proof.
  intros Hall. revert current.
  induction Hall as [|r runs Hr _ IH]; intros [|c current]; try done.
  cbn [map retarget_of]. by rewrite Hr.
Qed.

Lemma report_none current runs s :
  Forall (fun r : unit + exn => is_exception r = false) runs ->
  report runs (map is_exception runs) current s = (Ret tt, s).
Proof.
  intros Hall. revert current.
  induction Hall as [|r runs Hr _ IH]; intros [|c current]; try done.
  cbn [map report]. rewrite Hr. unfold bind at 1. cbn [ret]. apply IH.
Qed.

Lemma step_clean fuel self w targets runs s1 :
  gather (map (run_download fuel) (map (dl_of self) (batch self targets))) (self, w)
    = (Ret runs, s1) ->
  Forall (fun r => is_exception r = false) runs ->
  step fuel targets (self, w) = (Ret (remaining self targets), s1).
Proof.
  intros Hruns Hall.
  unfold step, bind at 1, get_self at 1. cbn [fst].
  unfold batch, remaining in *.
  destruct (pick _ [] targets) as [current rest]; cbn [fst snd] in *.
  unfold bind at 1. rewrite Hruns. unfold bind at 1. rewrite report_none by done.
  rewrite retarget_of_none by done. rewrite filter_nil. cbn [map gather].
  unfold bind at 1. cbn [ret]. unfold bind at 1. cbn [sum_lists ret].
  by rewrite app_nil_r.
Qed.

Lemma attr_check_token {A} (m : Meth A) self w :
  token self <> None -> attr_check ["token"] m (self, w) = m (self, w).
Proof.
  intros Ht. apply attr_check_pass. repeat constructor.
  unfold attr_is_none. cbn. by rewrite bool_decide_eq_false_2.
Qed.

(** With a width of zero or less a round takes nothing from the frontier
    and the loop never gets to its end. *)
Lemma loop_spins fuel self w i targets :
  (chunking self <= 0)%Z ->
  loop fuel (i :: targets) (self, w) = (Diverge, (self, w)).
Proof.
  intros Hc.
  assert (Hstep : forall fuel targets,
            step fuel targets (self, w) = (Ret targets, (self, w))).
  { intros fuel' targets'.
    rewrite (step_clean fuel' self w targets' [] (self, w)).
    - unfold remaining. by replace (Z.to_nat (chunking self)) with 0%nat by lia.
    - unfold batch. by replace (Z.to_nat (chunking self)) with 0%nat by lia.
    - constructor. }
  revert i targets. induction fuel as [|fuel IH]; intros i targets; [done|].
  cbn [loop]. unfold bind. rewrite Hstep. apply IH.
Qed.

(** X18: without [token], [Scraper.get] raises the [ValueError] of the
    attribute check; the crawl does not start. *)
Theorem scraper_needs_token fuel self w :
  token self = None ->
  Scraper.get fuel (self, w) = (Raise (ValueError (unset_message "token")), (self, w)).
Proof.
  intros Ht. unfold Scraper.get.
  apply (attr_check_stop [] "token" []); [done|].
  unfold attr_is_none. cbn. by rewrite Ht.
Qed.

(** X19: a round in which every retrieval of the batch returns makes no
    listing and logs no failure: the new frontier is what the batch left
    of the old one, and the world is the one the retrievals left. *)
Theorem step_without_failures fuel self w targets runs s1 :
  runs_all (map (run_download fuel) (map (dl_of self) (batch self targets)))
    (self, w) runs s1 ->
  Forall (fun r => is_exception r = false) runs ->
  step fuel targets (self, w) = (Ret (remaining self targets), s1).
Proof.
  intros Hruns Hall. apply gather_runs_all in Hruns.
  by apply (step_clean fuel self w targets runs s1).
Qed.

(** X20: when the export of the root goes through, the crawl is over
    after this one round: folders are taken as archives, so nothing below
    the root is listed or fetched on its own. *)
Theorem scraper_ends_when_root_is_exported fuel self w s1 :
  token self <> None ->
  (1 <= chunking self)%Z ->
  run_download fuel (dl_of self root) (self, w) = (Ret tt, s1) ->
  Scraper.get (S fuel) (self, w) = (Ret tt, s1).
Proof.
  intros Ht Hc Hrun. unfold Scraper.get. rewrite attr_check_token by done.
  cbn [loop]. unfold bind.
  assert (Hpick : pick (Z.to_nat (chunking self)) [] [root] = ([root], [])).
  { destruct (Z.to_nat (chunking self)) as [|n] eqn:Hn; [lia|]. by destruct n. }
  rewrite (step_clean fuel self w [root] [inl tt] s1).
  - unfold remaining. rewrite Hpick. cbn [snd]. by destruct fuel.
  - unfold batch. rewrite Hpick. cbn [fst map gather]. rewrite Hrun.
    by unfold bind.
  - by repeat constructor.
Qed.

(** X21: with [chunking <= 0] the crawl never ends and never does
    anything: whatever the fuel, [Scraper.get] is still running, and the
    world is the one it started in. *)
Theorem scraper_spins_without_width fuel self w :
  token self <> None ->
  (chunking self <= 0)%Z ->
  Scraper.get fuel (self, w) = (Diverge, (self, w)).
Proof.
  intros Ht Hc. unfold Scraper.get. rewrite attr_check_token by done.
  by apply loop_spins.
Qed.


(** X23: with an output directory and [--chunk-size 0] (or less), [main]
    never ends and never sends a request. *)
Theorem main_spins_without_width fuel args w :
  Args.output args <> None ->
  (Args.chunk_size args <= 0)%Z ->
  main fuel args w = (Diverge, w).
Proof.
  intros Ho Hc. unfold main. destruct (Args.output args) as [out|]; [|done].
  unfold Scraper.get. rewrite attr_check_token by done.
  by rewrite loop_spins.
Qed.

End SchedMore.

(** ** The further properties at work *)

Lemma get_first_success_witness :
  let env := Demo.env Examples.serving in
  let w := Demo.empty_world Examples.serving in
  @BaseDownload._get env "u" [] (Examples.file_dl, w)
    = (Ret (Some {| status_code := 200; content := "file bytes" |}),
       (Examples.file_dl, @extend env w [EvRequest (GET "u" 60)])).
Proof.
  intros env w.
  apply (@get_first_success env "u" [] Examples.file_dl w); [done|reflexivity|reflexivity].
Defined.

Lemma get_accepted_failure_witness :
  let env := Demo.env Examples.rejecting in
  let w := Demo.empty_world Examples.rejecting in
  exists evs,
    @BaseDownload._get env "u" [400%Z] (Examples.file_dl, w)
      = (Ret (Some {| status_code := 400; content := "{error_msg: too large}" |}),
         (Examples.file_dl, @extend env w (EvRequest (GET "u" 60) :: evs)))
    /\ count is_get evs = 0%nat /\ count is_sleep evs = 0%nat.
Proof.
  intros env w.
  apply (@get_accepted_failure env "u" [400%Z] Examples.file_dl w);
    [done|reflexivity|reflexivity|apply list_elem_of_here].
Defined.

Lemma get_missing_schema_witness :
  let env := Demo.env Examples.schemaless in
  let w := Demo.empty_world Examples.schemaless in
  exists evs,
    @BaseDownload._get env "u" [] (Examples.file_dl, w)
      = (Ret None, (Examples.file_dl, @extend env w (EvRequest (GET "u" 60) :: evs)))
    /\ count is_get evs = 0%nat /\ count is_sleep evs = 0%nat.
Proof.
  intros env w.
  apply (@get_missing_schema env "u" [] Examples.file_dl w); [done|reflexivity].
Defined.

Lemma get_first_failure_unbound_witness :
  let env := Demo.env Examples.timing_out in
  let w := Demo.empty_world Examples.timing_out in
  exists evs,
    @BaseDownload._get env "u" [] (Examples.file_dl, w)
      = (Raise (UnboundLocalError "response"),
         (Examples.file_dl, @extend env w (EvRequest (GET "u" 60) :: evs)))
    /\ count is_get evs = 0%nat /\ count is_sleep evs = 0%nat.
Proof.
  intros env w.
  apply (@get_first_failure_unbound env "u" [] Examples.file_dl w Timeout);
    [done|reflexivity|by left].
Defined.

Lemma attr_check_all_set_witness :
  let env := Demo.env Examples.serving in
  let w := Demo.empty_world Examples.serving in
  @attr_check env _ ["path"; "token"] (@Download.get env) (Examples.file_dl, w)
    = @Download.get env (Examples.file_dl, w).
Proof.
  intros env w. apply (@attr_check_all_set env). by repeat constructor.
Defined.

Lemma attr_check_first_unset_witness :
  let env := Demo.env Examples.serving in
  let w := Demo.empty_world Examples.serving in
  @attr_check env _ ([] ++ "path" :: ["token"]) (@Download.get env) (Examples.pathless_dl, w)
    = (Raise (ValueError (unset_message "path")), (Examples.pathless_dl, w)).
Proof.
  intros env w. apply (@attr_check_first_unset env); [constructor|reflexivity].
Defined.

Lemma download_propagates_failure_witness :
  let env := Demo.env Examples.timing_out in
  let w := Demo.empty_world Examples.timing_out in
  let s1 := (Examples.file_dl,
             @extend env w [EvRequest (GET (FILE_TARGET "tok" "/a.txt") 60)]) in
  @BaseDownload.download env (@Download.get env) (Examples.file_dl, w)
    = (Raise (UnboundLocalError "response"), s1)
  /\ s1.1 = Examples.file_dl /\ fs s1.2 = fs w.
Proof.
  intros env w s1.
  apply (@download_propagates_failure env Examples.file_dl w "out" "/a.txt");
    [reflexivity|reflexivity|left; reflexivity|vm_compute; reflexivity].
Defined.

Lemma download_writes_body_witness :
  let env := Demo.env Examples.serving in
  let w := Examples.prepared Examples.serving in
  exists logs,
    @BaseDownload.download env (@Download.get env) (Examples.file_dl, w)
      = (Ret tt,
         (Examples.file_dl,
          @Build_World env
            (trace w ++ EvRequest (GET (FILE_TARGET "tok" "/a.txt") 60)
               :: logs ++ [EvPrint "Writing out/a.txt"])
            (<["out/a.txt" := Some "file bytes"]> (fs w : Demo.fsmap))))
    /\ Forall (fun e => is_print e = true) logs.
Proof.
  intros env w.
  apply (@download_writes_body env Examples.file_dl w "out" "/a.txt" "tok"
           {| status_code := 200; content := "file bytes" |});
    [done|reflexivity|reflexivity|reflexivity|left; reflexivity|reflexivity
    |reflexivity|vm_compute; reflexivity|reflexivity].
Defined.


Lemma zip_methods_need_token_witness :
  let env := Demo.env Examples.exporting in
  let w := Demo.empty_world Examples.exporting in
  @ZipDownload.check_zip_status env (Examples.zip_dl, w)
    = (Raise (ValueError (unset_message "zip_token")), (Examples.zip_dl, w))
  /\ @ZipDownload.get_zip env (Examples.zip_dl, w)
     = (Raise (ValueError (unset_message "zip_token")), (Examples.zip_dl, w))
  /\ @ZipDownload.cancel_zip env (Examples.zip_dl, w)
     = (Raise (ValueError (unset_message "zip_token")), (Examples.zip_dl, w)).
Proof.
  intros env w. apply (@zip_methods_need_token env Examples.zip_dl w). reflexivity.
Defined.



Lemma get_rejected_without_token_witness :
  let env := Demo.env Examples.rejecting in
  let w := Demo.empty_world Examples.rejecting in
  let w1 := @extend env w [EvRequest (GET (ZIP_TARGET "tok" "/sub") 60)] in
  exists evs,
    @ZipDownload.get env 5 (Examples.zip_dl, w)
      = (Raise (ValueError
                  "Calling this method requires the attribute 'zip_token' to be set"),
         (Examples.zip_dl, @extend env w1 evs))
    /\ count is_post evs = 0%nat /\ count is_get evs = 0%nat.
Proof.
  intros env w w1.
  apply (@get_rejected_without_token env 5 Examples.zip_dl w
           [("error_msg", PyStr "too large"); ("requests_status", PyInt 400)]);
    [vm_compute; reflexivity|reflexivity|reflexivity].
Defined.

Lemma zip_get_diverges_in_poll_witness :
  let env := Demo.env Examples.exporting in
  let w := Demo.empty_world Examples.exporting in
  exists s2, (@ZipDownload.poll env 1 s2).1 = Diverge.
Proof.
  intros env w.
  apply (@zip_get_diverges_in_poll env 1 (Examples.zip_dl, w)).
  vm_compute. reflexivity.
Defined.

Lemma step_raises_on_failed_listing_witness :
  let env := Demo.env Examples.unlistable in
  let w := Demo.empty_world Examples.unlistable in
  exists s3,
    @Scraper.step env 3 [Scraper.root] (Examples.scraper, w)
      = (Raise (TypeError "can only concatenate list to list"), s3).
Proof.
  intros env w. eexists.
  eapply (@step_raises_on_failed_listing env 3 Examples.scraper w [Scraper.root]
            _ _ _ _ _ (UnboundLocalError "response")).
  - apply gather_runs_all. vm_compute. reflexivity.
  - vm_compute. reflexivity.
  - apply gather_runs_all. vm_compute. reflexivity.
  - apply list_elem_of_here.
Defined.

Lemma scraper_needs_token_witness :
  let env := Demo.env Examples.serving in
  let w := Demo.empty_world Examples.serving in
  @Scraper.get env 3 (Examples.tokenless, w)
    = (Raise (ValueError (unset_message "token")), (Examples.tokenless, w)).
Proof.
  intros env w. apply (@scraper_needs_token env 3 Examples.tokenless w). reflexivity.
Defined.

Lemma step_without_failures_witness :
  let env := Demo.env Examples.exporting_root in
  let w := Demo.empty_world Examples.exporting_root in
  exists s1,
    @Scraper.step env 3 [Scraper.root] (Examples.scraper, w)
      = (Ret (remaining Examples.scraper [Scraper.root]), s1).
Proof.
  intros env w. eexists.
  eapply (@step_without_failures env 3 Examples.scraper w [Scraper.root] [inl tt]).
  - apply gather_runs_all. vm_compute. reflexivity.
  - by repeat constructor.
Defined.

Lemma scraper_ends_when_root_is_exported_witness :
  let env := Demo.env Examples.exporting_root in
  let w := Demo.empty_world Examples.exporting_root in
  exists s1, @Scraper.get env 4 (Examples.scraper, w) = (Ret tt, s1).
Proof.
  intros env w. eexists.
  apply (@scraper_ends_when_root_is_exported env 3 Examples.scraper w);
    [done|done|vm_compute; reflexivity].
Defined.

Lemma scraper_spins_without_width_witness :
  let env := Demo.env Examples.serving in
  let w := Demo.empty_world Examples.serving in
  @Scraper.get env 7 (Examples.widthless, w) = (Diverge, (Examples.widthless, w)).
Proof.
  intros env w.
  apply (@scraper_spins_without_width env 7 Examples.widthless w); done.
Defined.


Lemma main_spins_without_width_witness :
  let env := Demo.env Examples.serving in
  let w := Demo.empty_world Examples.serving in
  @main env 7 Examples.zero_width w = (Diverge, w).
Proof.
  intros env w. apply (@main_spins_without_width env 7 Examples.zero_width w); done.
Defined.

(** On a page whose anchor has no [href], [get_files] raises the
    [KeyError] of that key. *)
Example get_files_without_href :
  @get_files Examples.broken_env "<page>"
      (Examples.file_dl, @Build_World Examples.broken_env [] (∅ : Demo.fsmap))
    = (Raise (KeyError "href"),
       (Examples.file_dl, @Build_World Examples.broken_env [] (∅ : Demo.fsmap))).
Proof. reflexivity. Qed.
